(** * Azure Entra ID bearer-token validation (app/auth/azure_ad.py, app/routers/auth.py)

    A shallow embedding of the authentication core of the API gateway:
    the memoized discovery-document and JWKS fetchers, signing-key lookup,
    the issuer/audience verification loop, the projection of claims into a
    user record, the FastAPI dependency that reads the [Authorization]
    header, the settings constructor and the memoized [get_settings].

    Conventions.
    - Python [str] values are Rocq [string]s.  Header values reach the code
      decoded as latin-1, so one [ascii] is one code point in 0..255.
    - Values produced by [json.loads] ([resp.json()], token headers and
      payloads) are the inductive [json]; a Python [dict] with string keys is
      a [gmap string json]; Python [None] is [JNull].
    - Exceptions are the inductive [exn]; code that may raise returns
      [result]; code with effects (HTTP, memoization, logging) runs in the
      state-and-exception monad [M] over [World].
    - Third-party functions (python-jose, httpx, the wall clock) are the
      fields of [Env]. *)

From Stdlib Require Import ZArith Ascii PrimFloat FloatOps SpecFloat.
From stdpp Require Import gmap strings list fin_maps pretty.

Set Warnings "-register-all".

(** ** Python values *)

(** A value decoded from JSON.  [JFloat] is an IEEE binary64, as Python's
    [float]. *)
Inductive json : Type :=
| JNull
| JBool (b : bool)
| JInt (n : Z)
| JFloat (f : float)
| JStr (s : string)
| JList (l : list json)
| JObj (m : gmap string json).

Module Py.

(** Truth value of an object, as tested by [if v], [not v], [a or b]. *)
Definition truthy (v : json) : bool :=
  match v with
  | JNull => false
  | JBool b => b
  | JInt n => negb (n =? 0)%Z
  | JFloat f => negb (f =? 0)%float
  | JStr s => negb (String.eqb s "")
  | JList l => negb (Nat.eqb (length l) 0)
  | JObj m => negb (Nat.eqb (size m) 0)
  end.

(** [a or b] *)
Definition or_ (a b : json) : json := if truthy a then a else b.

(** [d.get(k)] and [d.get(k, default)] on a dict. *)
Definition get (d : gmap string json) (k : string) : json :=
  default JNull (d !! k).
Definition get_default (d : gmap string json) (k : string) (dflt : json) : json :=
  default dflt (d !! k).

(** Exact comparison of a float with an integer, as [float.__eq__] does
    with an [int] operand. *)
Definition float_eq_Z (f : float) (z : Z) : bool :=
  match Prim2SF f with
  | S754_zero _ => (z =? 0)%Z
  | S754_finite s m e =>
      let v := if s then Z.neg m else Z.pos m in
      if (0 <=? e)%Z then (z =? v * 2 ^ e)%Z
      else (Z.pos m mod 2 ^ (- e) =? 0)%Z && (z =? v / 2 ^ (- e))%Z
  | _ => false
  end.

(** [a == b] between two values decoded from JSON.  [bool] is a subclass
    of [int], numbers compare by value, containers compare element-wise,
    dicts regardless of insertion order. *)
Fixpoint eq (a b : json) {struct a} : bool :=
  match a, b with
  | JNull, JNull => true
  | JBool x, JBool y => Bool.eqb x y
  | JBool x, JInt y => (Z.b2z x =? y)%Z
  | JInt x, JBool y => (x =? Z.b2z y)%Z
  | JInt x, JInt y => (x =? y)%Z
  | JFloat x, JFloat y => (x =? y)%float
  | JFloat x, JInt y => float_eq_Z x y
  | JInt x, JFloat y => float_eq_Z y x
  | JFloat x, JBool y => float_eq_Z x (Z.b2z y)
  | JBool x, JFloat y => float_eq_Z y (Z.b2z x)
  | JStr x, JStr y => String.eqb x y
  | JList x, JList y =>
      (fix go (x y : list json) : bool :=
         match x, y with
         | [], [] => true
         | a :: x', b :: y' => eq a b && go x' y'
         | _, _ => false
         end) x y
  | JObj x, JObj y =>
      Nat.eqb (size x) (size y)
      && map_fold (fun k v acc =>
                     acc && match y !! k with
                            | Some w => eq v w
                            | None => false
                            end) true x
  | _, _ => false
  end.

(** *** [str] methods used by the gateway *)

(** [str.lower] on one code point below 256: A-Z, and the latin-1 capitals
    U+00C0..U+00DE except the multiplication sign U+00D7. *)
Definition lower_char (c : ascii) : ascii :=
  let n := nat_of_ascii c in
  if (65 <=? n) && (n <=? 90)
     || (192 <=? n) && (n <=? 222) && negb (n =? 215)
  then ascii_of_nat (n + 32) else c.

Fixpoint lower (s : string) : string :=
  match s with
  | EmptyString => EmptyString
  | String c s' => String (lower_char c) (lower s')
  end.

(** [s.startswith(p)] *)
Fixpoint startswith (s p : string) : bool :=
  match p, s with
  | EmptyString, _ => true
  | String a p', String b s' => Ascii.eqb a b && startswith s' p'
  | String _ _, EmptyString => false
  end.

(** [str.isspace] on one code point below 256. *)
Definition isspace (c : ascii) : bool :=
  let n := nat_of_ascii c in
  (9 <=? n) && (n <=? 13) || (28 <=? n) && (n <=? 32)
  || (n =? 133) || (n =? 160).

Fixpoint lstrip (s : string) : string :=
  match s with
  | EmptyString => EmptyString
  | String c s' => if isspace c then lstrip s' else s
  end.

Fixpoint rstrip (s : string) : string :=
  match s with
  | EmptyString => EmptyString
  | String c s' =>
      let r := rstrip s' in
      if isspace c && String.eqb r "" then EmptyString else String c r
  end.

(** [s.strip()] *)
Definition strip (s : string) : string := rstrip (lstrip s).

(** The text before and after the first occurrence of [sep], if any. *)
Fixpoint partition (sep : ascii) (s : string) : option (string * string) :=
  match s with
  | EmptyString => None
  | String c s' =>
      if Ascii.eqb c sep then Some (EmptyString, s')
      else match partition sep s' with
           | Some (a, b) => Some (String c a, b)
           | None => None
           end
  end.

(** [s.split(sep, 1)] for a one-character separator. *)
Definition split1 (sep : ascii) (s : string) : list string :=
  match partition sep s with
  | Some (a, b) => [a; b]
  | None => [s]
  end.

(** [s[:n]] *)
Definition slice_to (n : nat) (s : string) : string := String.substring 0 n s.

End Py.

(** ** Exceptions and results *)

Inductive exn : Type :=
| HTTPException (status_code : Z) (detail : string)   (* fastapi *)
| RuntimeError (msg : string)
| JWTError (msg : string)                             (* jose *)
| JWKError (msg : string)                             (* jose; not a JWTError *)
| HTTPStatusError (status_code : Z)                   (* httpx, raise_for_status *)
| RequestError (msg : string)                         (* httpx, transport failure *)
| InvalidURL (msg : string)                           (* httpx; not a RequestError *)
| JSONDecodeError                                     (* resp.json() on a non-JSON body *)
| AttributeError
| TypeError
| ValueError (msg : string)
| IndexError.

Definition HTTP_401_UNAUTHORIZED : Z := 401.

Inductive result (A : Type) : Type :=
| Ok (a : A)
| Raise (e : exn).
Arguments Ok {A} a.
Arguments Raise {A} e.

#[global] Instance result_ret : MRet result := fun A a => Ok a.
#[global] Instance result_bind : MBind result := fun A B f r =>
  match r with
  | Ok a => f a
  | Raise e => Raise e
  end.

(** [l[i]] on a list. *)
Definition list_getitem {A : Type} (l : list A) (i : nat) : result A :=
  match l !! i with
  | Some x => Ok x
  | None => Raise IndexError
  end.

(** [str(v)], as used by f-strings and by [str(g)].  The text Python prints
    for floats and containers is left to [repr]. *)
Definition py_str (repr : json -> string) (v : json) : string :=
  match v with
  | JStr s => s
  | JNull => "None"
  | JBool true => "True"
  | JBool false => "False"
  | JInt n => pretty n
  | _ => repr v
  end.

(** Three letters of the source's messages that lie outside ASCII, as the
    single code points they are in a Python [str]. *)
Definition a_acute : string := String (ascii_of_nat 225) EmptyString.
Definition i_acute : string := String (ascii_of_nat 237) EmptyString.
Definition o_acute : string := String (ascii_of_nat 243) EmptyString.

(** ** functools.lru_cache

    The decorator keeps the results of successful calls, most recently used
    first, at most [maxsize] of them; an exception is not remembered.  The
    wrapper works in three phases: look the key up, run the wrapped function
    on a miss, insert the result unless the key was added meanwhile. *)

Module Lru.

Definition maxsize : nat := 128.

Definition cache : Type := list (nat * json).

Fixpoint find (k : nat) (c : cache) : option json :=
  match c with
  | [] => None
  | (k', v) :: c' => if Nat.eqb k k' then Some v else find k c'
  end.

Fixpoint remove (k : nat) (c : cache) : cache :=
  match c with
  | [] => []
  | (k', v) :: c' => if Nat.eqb k k' then c' else (k', v) :: remove k c'
  end.

(** A hit returns the value and moves the entry to the front. *)
Definition lookup (k : nat) (c : cache) : option (json * cache) :=
  match find k c with
  | Some v => Some (v, (k, v) :: remove k c)
  | None => None
  end.

(** After the wrapped function returned [v]: keep the cache if the key is
    present, else insert at the front, dropping the oldest entry of a full
    cache. *)
Definition store (k : nat) (v : json) (c : cache) : cache :=
  match find k c with
  | Some _ => c
  | None =>
      if length c <? maxsize then (k, v) :: c
      else (k, v) :: take (maxsize - 1) c
  end.

End Lru.

(** ** Settings

    [AzureADSettings] defines neither [__eq__] nor [__hash__]: as an
    [lru_cache] key an instance is identified by the object itself,
    [obj_id]. *)
Record AzureADSettings : Type := {
  obj_id : nat;
  tenant_id : string;
  client_id : string;
  issuer : string;
  openid_config_url : string;
  jwks_uri : option string;
  audience : string
}.

(** ** The world outside the module *)

(** What the transport comes back with for a request. *)
Inductive http_result : Type :=
| TransportError (msg : string)
| Response (status_code : Z) (body : option json).
    (* [body] is [None] when the body is not JSON *)

(** The network, the wall clock and the third-party functions.
    - [url_error url]: the message of the [InvalidURL] that httpx raises
      when it parses [url] to build the request (a port that is not a
      number, a control character, ...), [None] when [url] parses.
    - [http_get n url]: what the transport answers to the [n]-th request of
      the process handed to it.
    - [clock n]: the wall-clock time while the [n]-th call of [jwt.decode]
      of the process runs.  [jwt.decode] has no time parameter; its [exp],
      [nbf] and [iat] checks read the clock during the call.
    - [jwt_decode now token key audience issuer], with [algorithms] fixed to
      RS256: the verified claims, or the exception the call raises.  A
      failed verification is a [JWTError] (its subclasses for an expired
      signature and a claims mismatch included); a key the library cannot
      load leaves the call as [JWKError], [ValueError] or [TypeError],
      none of which is a [JWTError].
    - [jwt_get_unverified_header], [jwt_get_unverified_claims]: the decoded
      dict, or the message of the [JWTError]; both functions turn every
      exception into a [JWTError].
    - [repr]: Python's text for floats and containers. *)
Record Env : Type := {
  url_error : string -> option string;
  http_get : nat -> string -> http_result;
  clock : nat -> Z;
  jwt_get_unverified_header : string -> string + gmap string json;
  jwt_get_unverified_claims : string -> string + gmap string json;
  jwt_decode : Z -> string -> gmap string json -> string -> string
               -> result (gmap string json);
  repr : json -> string
}.

Inductive level : Type := INFO | WARNING | ERROR.

(** One call of [jwt.decode]: the audience and issuer asked for and the
    time at which it ran. *)
Record decode_call : Type := {
  dc_audience : string;
  dc_issuer : string;
  dc_now : Z
}.

(** The state of the process: the two memo tables, the GET requests handed
    to the transport so far, the [jwt.decode] calls made so far, the log
    records written so far. *)
Record World : Type := {
  openid_config_cache : Lru.cache;
  jwks_cache : Lru.cache;
  http_log : list string;
  decode_log : list decode_call;
  log_records : list (level * string)
}.

Definition initial_world : World :=
  {| openid_config_cache := []; jwks_cache := []; http_log := [];
     decode_log := []; log_records := [] |}.

Definition set_openid_config_cache (c : Lru.cache) (w : World) : World :=
  {| openid_config_cache := c; jwks_cache := jwks_cache w;
     http_log := http_log w; decode_log := decode_log w;
     log_records := log_records w |}.

Definition set_jwks_cache (c : Lru.cache) (w : World) : World :=
  {| openid_config_cache := openid_config_cache w; jwks_cache := c;
     http_log := http_log w; decode_log := decode_log w;
     log_records := log_records w |}.

Definition add_http (url : string) (w : World) : World :=
  {| openid_config_cache := openid_config_cache w; jwks_cache := jwks_cache w;
     http_log := http_log w ++ [url]; decode_log := decode_log w;
     log_records := log_records w |}.

Definition add_decode (d : decode_call) (w : World) : World :=
  {| openid_config_cache := openid_config_cache w; jwks_cache := jwks_cache w;
     http_log := http_log w; decode_log := decode_log w ++ [d];
     log_records := log_records w |}.

Definition add_log (r : level * string) (w : World) : World :=
  {| openid_config_cache := openid_config_cache w; jwks_cache := jwks_cache w;
     http_log := http_log w; decode_log := decode_log w;
     log_records := log_records w ++ [r] |}.

(** ** The monad of effectful code *)

Definition M (A : Type) : Type := World -> result A * World.

#[global] Instance M_ret : MRet M := fun A a w => (Ok a, w).
#[global] Instance M_bind : MBind M := fun A B f c w =>
  match c w with
  | (Ok a, w') => f a w'
  | (Raise e, w') => (Raise e, w')
  end.

Definition raise {A : Type} (e : exn) : M A := fun w => (Raise e, w).

Definition lift {A : Type} (r : result A) : M A := fun w => (r, w).

Definition logger (lv : level) (msg : string) : M unit :=
  fun w => (Ok tt, add_log (lv, msg) w).

(** The two memoized functions and their tables. *)
Inductive memo : Type := MemoOpenidConfig | MemoJwks.

Definition memo_cache (m : memo) (w : World) : Lru.cache :=
  match m with
  | MemoOpenidConfig => openid_config_cache w
  | MemoJwks => jwks_cache w
  end.

Definition set_memo_cache (m : memo) (c : Lru.cache) (w : World) : World :=
  match m with
  | MemoOpenidConfig => set_openid_config_cache c w
  | MemoJwks => set_jwks_cache c w
  end.

(** [@lru_cache()] around [f], called on [settings]. *)
Definition lru_cache (m : memo) (f : AzureADSettings -> M json)
    (settings : AzureADSettings) : M json :=
  fun w =>
    match Lru.lookup (obj_id settings) (memo_cache m w) with
    | Some (v, c') => (Ok v, set_memo_cache m c' w)
    | None =>
        match f settings w with
        | (Ok v, w') =>
            (Ok v, set_memo_cache m (Lru.store (obj_id settings) v (memo_cache m w')) w')
        | (Raise e, w') => (Raise e, w')
        end
    end.

(** ** app/auth/azure_ad.py *)

Section AzureAD.

Context (E : Env).

(** [client.get(url)].  httpx first builds the request: a URL that is not
    a [str] is refused with a [TypeError] and one that does not parse with
    [InvalidURL], and nothing is sent.  Otherwise one request goes to the
    transport. *)
Definition client_get (url : json) : M (Z * option json) :=
  match url with
  | JStr u =>
      match url_error E u with
      | Some msg => raise (InvalidURL msg)
      | None =>
          fun w =>
            match http_get E (length (http_log w)) u with
            | TransportError msg => (Raise (RequestError msg), add_http u w)
            | Response st body => (Ok (st, body), add_http u w)
            end
      end
  | _ => raise TypeError
  end.

(** [resp.raise_for_status()] *)
Definition raise_for_status (resp : Z * option json) : result unit :=
  if (200 <=? resp.1)%Z && (resp.1 <=? 299)%Z then Ok tt
  else Raise (HTTPStatusError resp.1).

(** [resp.json()] *)
Definition resp_json (resp : Z * option json) : result json :=
  match resp.2 with
  | Some j => Ok j
  | None => Raise JSONDecodeError
  end.

(** The body of [get_openid_config], under the decorator. *)
Definition get_openid_config_body (settings : AzureADSettings) : M json :=
  resp ← client_get (JStr (openid_config_url settings));
  _ ← lift (raise_for_status resp);
  lift (resp_json resp).

Definition get_openid_config : AzureADSettings -> M json :=
  lru_cache MemoOpenidConfig get_openid_config_body.

(** [config.get("jwks_uri")]: [config] is whatever the document decoded to. *)
Definition config_get (config : json) (k : string) : result json :=
  match config with
  | JObj d => Ok (Py.get d k)
  | _ => Raise AttributeError
  end.

(** The body of [get_jwks], under the decorator. *)
Definition get_jwks_body (settings : AzureADSettings) : M json :=
  let jwks_uri0 :=
    match jwks_uri settings with
    | Some u => JStr u
    | None => JNull
    end in
  jwks_uri ←
    (if negb (Py.truthy jwks_uri0) then
       config ← get_openid_config settings;
       jwks_uri ← lift (config_get config "jwks_uri");
       if negb (Py.truthy jwks_uri) then
         raise (RuntimeError
                  ("No se pudo obtener jwks_uri desde la configuraci"
                   +:+ o_acute +:+ "n OpenID"))
       else mret jwks_uri
     else mret jwks_uri0);
  resp ← client_get jwks_uri;
  _ ← lift (raise_for_status resp);
  lift (resp_json resp).

Definition get_jwks : AzureADSettings -> M json :=
  lru_cache MemoJwks get_jwks_body.

(** [for key in v]: the elements of a list, the characters of a string, the
    keys of a dict; other JSON values are not iterable. *)
Definition py_iter (v : json) : result (list json) :=
  match v with
  | JList l => Ok l
  | JStr s => Ok ((fun c => JStr (String c EmptyString)) <$> String.list_ascii_of_string s)
  | JObj m => Ok ((fun kv => JStr kv.1) <$> map_to_list m)
  | _ => Raise TypeError
  end.

(** The loop of [_get_signing_key] and the [raise] after it. *)
Fixpoint find_signing_key (kid : json) (keys : list json)
    : result (gmap string json) :=
  match keys with
  | [] =>
      Raise (HTTPException HTTP_401_UNAUTHORIZED
               ("No se encontr" +:+ o_acute
                +:+ " clave de firma para el token"))
  | key :: rest =>
      match key with
      | JObj d =>
          if Py.eq (Py.get d "kid") kid then Ok d
          else find_signing_key kid rest
      | _ => Raise AttributeError
      end
  end.

Definition _get_signing_key (token : string) (jwks : json)
    : result (gmap string json) :=
  headers ← match jwt_get_unverified_header E token with
             | inr h => Ok h
             | inl msg => Raise (JWTError msg)
             end;
  let kid := Py.get headers "kid" in
  if negb (Py.truthy kid) then
    Raise (HTTPException HTTP_401_UNAUTHORIZED
             "Token sin 'kid' en el encabezado")
  else
    keys ← match jwks with
            | JObj d => Ok (Py.get_default d "keys" (JList []))
            | _ => Raise AttributeError
            end;
    keys ← py_iter keys;
    find_signing_key kid keys.

(** One call [jwt.decode(token, signing_jwk, algorithms=["RS256"],
    audience=aud, issuer=iss)]: it returns the claims or raises. *)
Definition decode (token : string) (signing_jwk : gmap string json)
    (aud iss : string) : M (gmap string json) :=
  fun w =>
    let now := clock E (length (decode_log w)) in
    (jwt_decode E now token signing_jwk aud iss,
     add_decode {| dc_audience := aud; dc_issuer := iss; dc_now := now |} w).

(** [try: body  except JWTError as e: handler]: any other exception of the
    body passes through. *)
Definition try_except_JWTError {A : Type} (body : M A)
    (handler : string -> M A) : M A :=
  fun w =>
    match body w with
    | (Raise (JWTError e), w') => handler e w'
    | other => other
    end.

(** How a loop with a [return] in its body ends. *)
Inductive loop_end : Type :=
| Returned (claims : gmap string json)
| Exhausted (last_error : option string).

(** [for iss in allowed_issuers: try ... except JWTError as e:
    last_error = e] *)
Fixpoint for_issuers (token : string) (signing_jwk : gmap string json)
    (aud : string) (issuers : list string) (last_error : option string)
    : M loop_end :=
  match issuers with
  | [] => mret (Exhausted last_error)
  | iss :: rest =>
      try_except_JWTError
        (claims ← decode token signing_jwk aud iss;
         _ ← logger INFO ("Token validado exitosamente. Aud: " +:+ aud
                          +:+ ", Iss: " +:+ iss);
         mret (Returned claims))
        (fun e => for_issuers token signing_jwk aud rest (Some e))
  end.

(** [for aud in allowed_audiences: for iss in allowed_issuers: ...] *)
Fixpoint for_audiences (token : string) (signing_jwk : gmap string json)
    (audiences issuers : list string) (last_error : option string)
    : M loop_end :=
  match audiences with
  | [] => mret (Exhausted last_error)
  | aud :: rest =>
      r ← for_issuers token signing_jwk aud issuers last_error;
      match r with
      | Returned claims => mret (Returned claims)
      | Exhausted last_error' =>
          for_audiences token signing_jwk rest issuers last_error'
      end
  end.

(** [str(last_error)] for [last_error: Exception | None]. *)
Definition str_last_error (last_error : option string) : string :=
  match last_error with
  | Some msg => msg
  | None => "None"
  end.

(** The [try] block that logs the unverified claims. *)
Definition log_unverified_claims (token : string) : M unit :=
  match jwt_get_unverified_claims E token with
  | inr unverified_claims =>
      _ ← logger INFO ("Token aud claim: "
                       +:+ py_str (repr E) (Py.get unverified_claims "aud"));
      _ ← logger INFO ("Token iss claim: "
                       +:+ py_str (repr E) (Py.get unverified_claims "iss"));
      _ ← logger INFO ("Token ver claim: "
                       +:+ py_str (repr E) (Py.get unverified_claims "ver"));
      logger INFO ("Token scp claim: "
                   +:+ py_str (repr E) (Py.get unverified_claims "scp"))
  | inl e =>
      logger WARNING ("No se pudieron leer claims sin verificar: " +:+ e)
  end.

Definition legacy_issuer (settings : AzureADSettings) : string :=
  "https://sts.windows.net/" +:+ tenant_id settings +:+ "/".

Definition validate_jwt (token : string) (settings : AzureADSettings)
    : M (gmap string json) :=
  jwks ← get_jwks settings;
  signing_jwk ← lift (_get_signing_key token jwks);
  _ ← logger INFO ("Validando token - Audience esperada: " +:+ audience settings);
  _ ← logger INFO ("Validando token - Issuer esperado: " +:+ issuer settings);
  _ ← log_unverified_claims token;
  let allowed_issuers := [issuer settings; legacy_issuer settings] in
  let allowed_audiences := [audience settings; client_id settings] in
  r ← for_audiences token signing_jwk allowed_audiences allowed_issuers None;
  match r with
  | Returned claims => mret claims
  | Exhausted last_error =>
      _ ← logger ERROR
            ("Error validando token JWT (todas las combinaciones fallaron): "
             +:+ str_last_error last_error);
      raise (HTTPException HTTP_401_UNAUTHORIZED
               ("Token inv" +:+ a_acute +:+ "lido: "
                +:+ str_last_error last_error))
  end.

Definition _extract_email_from_claims (claims : gmap string json)
    : result json :=
  let fix for_key (keys : list string) : option json :=
    match keys with
    | [] => None
    | key :: rest =>
        let value := Py.get claims key in
        if Py.truthy value then Some value else for_key rest
    end in
  match for_key ["preferred_username"; "upn"; "email"] with
  | Some value => Ok value
  | None =>
      let emails := Py.get claims "emails" in
      match emails with
      | JList l => if Py.truthy emails then list_getitem l 0 else Ok JNull
      | _ => Ok JNull
      end
  end.

Definition _extract_groups_from_claims (claims : gmap string json)
    : list string :=
  let groups := Py.or_ (Py.get claims "groups") (JList []) in
  match groups with
  | JList l => py_str (repr E) <$> l
  | _ => []
  end.

(** The request as the dependency sees it: the raw header list, names in
    lower case as the server delivers them.  [request.headers.get(name)]
    returns the value of the first entry whose name is [name.lower()]. *)
Definition Request : Type := list (string * string).

Fixpoint headers_get (headers : Request) (name : string) : option string :=
  match headers with
  | [] => None
  | (k, v) :: rest =>
      if String.eqb k (Py.lower name) then Some v else headers_get rest name
  end.

Definition get_current_user_claims (request : Request)
    (settings : AzureADSettings) : M (gmap string json) :=
  _ ← logger INFO ("=== Iniciando validaci" +:+ o_acute +:+ "n de token ===");
  let auth_header := headers_get request "Authorization" in
  let missing : M (gmap string json) :=
    _ ← logger WARNING ("Petici" +:+ o_acute
                        +:+ "n sin header Authorization v" +:+ a_acute +:+ "lido");
    raise (HTTPException HTTP_401_UNAUTHORIZED
             "Falta encabezado Authorization con Bearer token") in
  match auth_header with
  | None => missing
  | Some auth_header =>
      if String.eqb auth_header ""
         || negb (Py.startswith (Py.lower auth_header) "bearer ")
      then missing
      else
        part ← lift (list_getitem (Py.split1 " " auth_header) 1);
        let token := Py.strip part in
        if String.eqb token "" then
          _ ← logger WARNING ("Token Bearer vac" +:+ i_acute +:+ "o");
          raise (HTTPException HTTP_401_UNAUTHORIZED
                   ("Token Bearer vac" +:+ i_acute +:+ "o"))
        else
          _ ← logger INFO ("Token recibido (primeros 50 chars): "
                           +:+ Py.slice_to 50 token +:+ "...");
          claims ← validate_jwt token settings;
          mret claims
  end.

(** The dict returned by [build_user_info_from_claims]. *)
Record UserInfo : Type := {
  ui_id : json;
  ui_name : json;
  ui_email : json;
  ui_groups : list string;
  ui_raw_claims : gmap string json
}.

Definition build_user_info_from_claims (claims : gmap string json)
    : result UserInfo :=
  email ← _extract_email_from_claims claims;
  let groups := _extract_groups_from_claims claims in
  mret {| ui_id := Py.or_ (Py.get claims "oid") (Py.get claims "sub");
          ui_name := Py.get claims "name";
          ui_email := email;
          ui_groups := groups;
          ui_raw_claims := claims |}.

(** ** app/routers/auth.py *)

(** The object under ["user"] in the response of [GET /auth/me]. *)
Record User : Type := {
  user_id : json;
  user_name : json;
  user_email : json;
  user_groups : list string
}.

Definition read_current_user (claims : gmap string json) : result User :=
  user_info ← build_user_info_from_claims claims;
  mret {| user_id := ui_id user_info;
          user_name := ui_name user_info;
          user_email := ui_email user_info;
          user_groups := ui_groups user_info |}.

(** The endpoint of [GET /auth/me] with its dependency, for the settings
    object that [Depends(get_settings)] resolved to: FastAPI runs
    [get_current_user_claims] on the request and that object and, when it
    returns, passes its result to [read_current_user]; an exception of the
    dependency is the outcome of the request.  The resolution of the
    settings itself, which comes first, is [get_settings] below. *)
Definition auth_me (request : Request) (settings : AzureADSettings) : M User :=
  claims ← get_current_user_claims request settings;
  lift (read_current_user claims).

End AzureAD.

(** ** The failures by name

    Every failure the module signals on purpose is an [HTTPException] with
    status 401; the detail text tells them apart.  The gateway has two
    texts for missing credentials: one for a header that is absent or is not
    a bearer header, one for a bearer header with a blank token.  A
    discovery document without [jwks_uri] is a [RuntimeError]. *)

Definition MissingCredentials : exn :=
  HTTPException HTTP_401_UNAUTHORIZED "Falta encabezado Authorization con Bearer token".
Definition MissingCredentials_empty : exn :=
  HTTPException HTTP_401_UNAUTHORIZED ("Token Bearer vac" +:+ i_acute +:+ "o").
Definition MissingKeyId : exn :=
  HTTPException HTTP_401_UNAUTHORIZED "Token sin 'kid' en el encabezado".
Definition UnknownSigningKey : exn :=
  HTTPException HTTP_401_UNAUTHORIZED
    ("No se encontr" +:+ o_acute +:+ " clave de firma para el token").
Definition TokenRejected (last_message : string) : exn :=
  HTTPException HTTP_401_UNAUTHORIZED ("Token inv" +:+ a_acute +:+ "lido: " +:+ last_message).
Definition MalformedProviderMetadata : exn :=
  RuntimeError ("No se pudo obtener jwks_uri desde la configuraci"
                +:+ o_acute +:+ "n OpenID").

Definition is_unauthorized (e : exn) : bool :=
  match e with
  | HTTPException st _ => (st =? 401)%Z
  | _ => false
  end.

(** ** The verification loop as an ordered list of candidates

    The four (audience, issuer) pairs in the order of the nested loops:
    audiences outside, issuers inside. *)
Definition candidate_pairs (settings : AzureADSettings) : list (string * string) :=
  [ (audience settings, issuer settings);
    (audience settings, legacy_issuer settings);
    (client_id settings, issuer settings);
    (client_id settings, legacy_issuer settings) ].

(** The [i]-th candidate tried by a call that starts after [n0] earlier
    calls of [jwt.decode]: when it runs, and what [jwt.decode] answers. *)
Definition attempt_call (E : Env) (n0 i : nat) (p : string * string) : decode_call :=
  {| dc_audience := p.1; dc_issuer := p.2; dc_now := clock E (n0 + i) |}.

Definition attempt_outcome (E : Env) (token : string)
    (key : gmap string json) (n0 i : nat) (p : string * string)
    : result (gmap string json) :=
  jwt_decode E (clock E (n0 + i)) token key p.1 p.2.

(** An outcome after which the loop goes on: the message of its
    [JWTError]. *)
Definition caught (r : result (gmap string json)) : option string :=
  match r with
  | Raise (JWTError e) => Some e
  | _ => None
  end.

(** Position and outcome of the first attempt that ends the loop: the
    first one that does not raise a [JWTError]. *)
Fixpoint first_exit (l : list (result (gmap string json)))
    : option (nat * result (gmap string json)) :=
  match l with
  | [] => None
  | r :: rest =>
      match caught r with
      | Some _ =>
          match first_exit rest with
          | Some (i, r') => Some (S i, r')
          | None => None
          end
      | None => Some (0, r)
      end
  end.

(** The nested loops as one loop over a flat list of pairs. *)
Fixpoint try_pairs (E : Env) (token : string) (signing_jwk : gmap string json)
    (pairs : list (string * string)) (last_error : option string)
    : M loop_end :=
  match pairs with
  | [] => mret (Exhausted last_error)
  | (aud, iss) :: rest =>
      try_except_JWTError
        (claims ← decode E token signing_jwk aud iss;
         _ ← logger INFO ("Token validado exitosamente. Aud: " +:+ aud
                          +:+ ", Iss: " +:+ iss);
         mret (Returned claims))
        (fun e => try_pairs E token signing_jwk rest (Some e))
  end.

(** The message of the last [JWTError] in a list of outcomes. *)
Fixpoint last_failure (l : list (result (gmap string json)))
    (last_error : option string) : option string :=
  match l with
  | [] => last_error
  | r :: rest =>
      last_failure rest match caught r with
                        | Some e => Some e
                        | None => last_error
                        end
  end.

(** The loop ends in one of two ways only: with a candidate that verifies,
    or after all four candidates. *)
Definition stops_at_first_success_only (E : Env) (token : string)
    (settings : AzureADSettings) (w : World) : Prop :=
  forall jwks w1 key,
    get_jwks E settings w = (Ok jwks, w1) ->
    _get_signing_key E token jwks = Ok key ->
    let w' := (validate_jwt E token settings w).2 in
    (exists claims, (validate_jwt E token settings w).1 = Ok claims)
    \/ length (decode_log w') = length (decode_log w1) + 4.

(** The same call with every attempt reading the time [clock E n]. *)
Definition freeze_clock (E : Env) (n : nat) : Env :=
  {| url_error := url_error E;
     http_get := http_get E;
     clock := fun _ => clock E n;
     jwt_get_unverified_header := jwt_get_unverified_header E;
     jwt_get_unverified_claims := jwt_get_unverified_claims E;
     jwt_decode := jwt_decode E;
     repr := repr E |}.

(** Each attempt of the call uses the time sample read at its start. *)
Definition single_clock_sample (E : Env) (token : string)
    (settings : AzureADSettings) (w : World) : Prop :=
  let w' := (validate_jwt E token settings w).2 in
  forall d, d ∈ drop (length (decode_log w)) (decode_log w') ->
            dc_now d = clock E (length (decode_log w)).

(** A computation that leaves one component of the world as it found it. *)
Definition keeps {X A : Type} (field : World -> X) (c : M A) : Prop :=
  forall w, field (c w).2 = field w.

(** ** The gateway's view of the header *)

(** [s[n:]] *)
Fixpoint slice_from (n : nat) (s : string) : string :=
  match n, s with
  | 0, _ => s
  | S n', String _ s' => slice_from n' s'
  | S _, EmptyString => EmptyString
  end.


(** The log of the gateway at its exits: on entry, when the header is
    refused, when the token is empty, when a token goes to the validator. *)
Definition started (w : World) : World :=
  add_log (INFO, "=== Iniciando validaci" +:+ o_acute +:+ "n de token ===") w.
Definition refused (w : World) : World :=
  add_log (WARNING, "Petici" +:+ o_acute +:+ "n sin header Authorization v"
                    +:+ a_acute +:+ "lido") (started w).
Definition refused_empty (w : World) : World :=
  add_log (WARNING, "Token Bearer vac" +:+ i_acute +:+ "o") (started w).
Definition received (token : string) (w : World) : World :=
  add_log (INFO, "Token recibido (primeros 50 chars): "
                 +:+ Py.slice_to 50 token +:+ "...") (started w).

(** ** Overlapping calls of [get_jwks]

    A call of the decorated function goes through the three phases of the
    wrapper.  The lookup and the insertion each happen under the wrapper's
    lock; the wrapped function runs outside it, so calls made from several
    threads interleave between the phases. *)

Inductive call_state : Type :=
| Called                      (* the key has not been looked up yet *)
| Missed                      (* the lookup missed; the body has not run yet *)
| Computed (v : json)         (* the body returned [v]; not inserted yet *)
| Finished (r : result json).

Definition call_step (E : Env) (settings : AzureADSettings)
    (c : call_state) (w : World) : call_state * World :=
  match c with
  | Called =>
      match Lru.lookup (obj_id settings) (jwks_cache w) with
      | Some (v, c') => (Finished (Ok v), set_jwks_cache c' w)
      | None => (Missed, w)
      end
  | Missed =>
      match get_jwks_body E settings w with
      | (Ok v, w') => (Computed v, w')
      | (Raise e, w') => (Finished (Raise e), w')
      end
  | Computed v =>
      (Finished (Ok v),
       set_jwks_cache (Lru.store (obj_id settings) v (jwks_cache w)) w)
  | Finished r => (Finished r, w)
  end.

(** [schedule] names, step by step, the thread that moves next. *)
Fixpoint run_schedule (E : Env) (settings : AzureADSettings)
    (schedule : list nat) (threads : list call_state) (w : World)
    : list call_state * World :=
  match schedule with
  | [] => (threads, w)
  | i :: rest =>
      match threads !! i with
      | Some c =>
          let '(c', w') := call_step E settings c w in
          run_schedule E settings rest (<[i := c']> threads) w'
      | None => run_schedule E settings rest threads w
      end
  end.

Definition is_finished (c : call_state) : bool :=
  match c with
  | Finished _ => true
  | _ => false
  end.

(** Single flight: however [n] first-use calls interleave, once all have
    finished exactly one request has been sent. *)
Definition single_flight (E : Env) (settings : AzureADSettings) (n : nat) : Prop :=
  forall schedule threads w,
    run_schedule E settings schedule (replicate n Called) initial_world
      = (threads, w) ->
    forallb is_finished threads = true ->
    length (http_log w) = 1.

(** [n] calls of [get_jwks], each one started when the one before has
    returned. *)
Fixpoint call_in_turn (E : Env) (settings : AzureADSettings) (n : nat)
    (w : World) : list (result json) * World :=
  match n with
  | 0 => ([], w)
  | S n' =>
      let '(r, w') := get_jwks E settings w in
      let '(rs, w'') := call_in_turn E settings n' w' in
      (r :: rs, w'')
  end.

(** ** A concrete environment

    One tenant ["T"], one application ["C"], one published key ["k1"].
    The provider answers both documents with status 200; any other URL does
    not connect, and one URL, with a port that is not a number, does not
    parse.  The clock advances by two seconds per [jwt.decode] call from
    999.  Token ["legacy"] is signed with ["k1"], issued by the legacy
    issuer for audience ["C"] and expires at 1000; ["nokid"] has a header
    without [kid]; ["rotated"] names the unpublished key ["k9"]; the header
    of any other token does not parse.  The library loads RSA keys only. *)

Module Demo.

Definition discovery_url : string := "https://login.example/T/v2.0/.well-known/openid-configuration".
Definition keys_url : string := "https://login.example/T/discovery/v2.0/keys".

Definition key1 : gmap string json :=
  {[ "kid" := JStr "k1"; "kty" := JStr "RSA" ]}.

Definition jwks : json := JObj {[ "keys" := JList [JObj key1] ]}.

Definition discovery : json :=
  JObj {[ "issuer" := JStr "https://login.example/T/v2.0";
          "jwks_uri" := JStr keys_url ]}.

Definition legacy_claims : gmap string json :=
  {[ "iss" := JStr "https://sts.windows.net/T/";
     "aud" := JStr "C";
     "exp" := JInt 1000;
     "oid" := JStr "u-1";
     "upn" := JStr "a@b.com" ]}.

Definition header_of (token : string) : string + gmap string json :=
  if String.eqb token "legacy" then inr {[ "alg" := JStr "RS256"; "kid" := JStr "k1" ]}
  else if String.eqb token "nokid" then inr {[ "alg" := JStr "RS256" ]}
  else if String.eqb token "rotated" then inr {[ "alg" := JStr "RS256"; "kid" := JStr "k9" ]}
  else inl "Error decoding token headers.".

Definition claims_of (token : string) : string + gmap string json :=
  if String.eqb token "legacy" then inr legacy_claims
  else inl "Error decoding token claims.".

(** [jwt.decode] on token ["legacy"]: the key is loaded first, and a key
    that is not an RSA key is refused with [JWKError]; then the checks in
    the library's order: signature, expiry, audience, issuer. *)
Definition decode_at (now : Z) (token : string) (key : gmap string json)
    (aud iss : string) : result (gmap string json) :=
  if negb (Py.eq (Py.get key "kty") (JStr "RSA")) then
    Raise (JWKError ("Incorrect key type. Expected: 'RSA', Received: "
                     +:+ py_str (fun _ => "<object>") (Py.get key "kty")))
  else if negb (String.eqb token "legacy") then
    Raise (JWTError "Signature verification failed.")
  else if (1000 <? now)%Z then Raise (JWTError "Signature has expired.")
  else if negb (String.eqb aud "C") then Raise (JWTError "Invalid audience")
  else if negb (String.eqb iss "https://sts.windows.net/T/") then
    Raise (JWTError "Invalid issuer")
  else Ok legacy_claims.

(** httpx on a port that is not a number. *)
Definition bad_port_url : string := "https://login.example:port/keys".

Definition parse_error (url : string) : option string :=
  if String.eqb url bad_port_url then Some "Invalid port: 'port'" else None.

Definition respond (n : nat) (url : string) : http_result :=
  if String.eqb url discovery_url then Response 200 (Some discovery)
  else if String.eqb url keys_url then Response 200 (Some jwks)
  else TransportError "All connection attempts failed".

Definition env : Env :=
  {| url_error := parse_error;
     http_get := respond;
     clock := fun n => (999 + 2 * Z.of_nat n)%Z;
     jwt_get_unverified_header := header_of;
     jwt_get_unverified_claims := claims_of;
     jwt_decode := decode_at;
     repr := fun _ => "<object>" |}.

(** The same provider publishing a discovery document without [jwks_uri]. *)
Definition respond_bare (n : nat) (url : string) : http_result :=
  if String.eqb url discovery_url then Response 200 (Some (JObj ∅))
  else respond n url.

Definition env_bare : Env :=
  {| url_error := parse_error;
     http_get := respond_bare;
     clock := clock env;
     jwt_get_unverified_header := header_of;
     jwt_get_unverified_claims := claims_of;
     jwt_decode := decode_at;
     repr := repr env |}.

(** The same provider publishing under the identifier ["k1"] a key that
    is not an RSA key. *)
Definition key_ec : gmap string json :=
  {[ "kid" := JStr "k1"; "kty" := JStr "EC" ]}.

Definition jwks_ec : json := JObj {[ "keys" := JList [JObj key_ec] ]}.

Definition respond_ec (n : nat) (url : string) : http_result :=
  if String.eqb url keys_url then Response 200 (Some jwks_ec)
  else respond n url.

Definition env_ec : Env :=
  {| url_error := parse_error;
     http_get := respond_ec;
     clock := clock env;
     jwt_get_unverified_header := header_of;
     jwt_get_unverified_claims := claims_of;
     jwt_decode := decode_at;
     repr := repr env |}.

(** Settings for tenant ["T"] and application ["C"] with an application
    URI as audience. *)
Definition settings : AzureADSettings :=
  {| obj_id := 1;
     tenant_id := "T";
     client_id := "C";
     issuer := "https://login.example/T/v2.0";
     openid_config_url := discovery_url;
     jwks_uri := None;
     audience := "api://C" |}.

(** The same with the default audience, the client id. *)
Definition settings_default : AzureADSettings :=
  {| obj_id := 3;
     tenant_id := "T";
     client_id := "C";
     issuer := "https://login.example/T/v2.0";
     openid_config_url := discovery_url;
     jwks_uri := None;
     audience := "C" |}.

(** The same with the JWKS URL given explicitly. *)
Definition settings_explicit : AzureADSettings :=
  {| obj_id := 2;
     tenant_id := "T";
     client_id := "C";
     issuer := "https://login.example/T/v2.0";
     openid_config_url := discovery_url;
     jwks_uri := Some keys_url;
     audience := "api://C" |}.

End Demo.

(** ** app/config/config.py and [AzureADSettings.__init__] *)

(** [ENV_VARIABLES = {**dotenv_values(".env"), **os.environ}]: the process
    environment over the file.  A key of the file without a value is [None]. *)
Definition ENV_VARIABLES (dotenv : gmap string (option string))
    (os_environ : gmap string string) : gmap string (option string) :=
  (Some <$> os_environ) ∪ dotenv.

(** [ENV_VARIABLES.get(k)] and [ENV_VARIABLES.get(k, default)] *)
Definition env_get (env : gmap string (option string)) (k : string)
    : option string :=
  default None (env !! k).
Definition env_get_default (env : gmap string (option string)) (k : string)
    (dflt : string) : option string :=
  default (Some dflt) (env !! k).

(** The attributes [__init__] sets.  The two identifiers are non-empty
    strings; the others are what the environment holds, [None] included. *)
Record AzureADSettings_attrs : Type := {
  a_tenant_id : string;
  a_client_id : string;
  a_issuer : option string;
  a_openid_config_url : option string;
  a_jwks_uri : option string;
  a_audience : option string
}.

Definition AzureADSettings_init (env : gmap string (option string))
    : result AzureADSettings_attrs :=
  let tenant_id := env_get env "AZURE_AD_TENANT_ID" in
  let client_id := env_get env "AZURE_AD_CLIENT_ID" in
  let missing : result AzureADSettings_attrs :=
    Raise (RuntimeError
             "AZURE_AD_TENANT_ID y AZURE_AD_CLIENT_ID deben estar configurados en el entorno") in
  match tenant_id, client_id with
  | Some tenant_id, Some client_id =>
      if String.eqb tenant_id "" || String.eqb client_id "" then missing
      else
        Ok {| a_tenant_id := tenant_id;
              a_client_id := client_id;
              a_issuer :=
                env_get_default env "AZURE_AD_ISSUER"
                  ("https://login.microsoftonline.com/" +:+ tenant_id +:+ "/v2.0");
              a_openid_config_url :=
                env_get_default env "AZURE_AD_OPENID_CONFIG_URL"
                  ("https://login.microsoftonline.com/" +:+ tenant_id
                   +:+ "/v2.0/.well-known/openid-configuration");
              a_jwks_uri := env_get env "AZURE_AD_JWKS_URI";
              a_audience := env_get_default env "AZURE_AD_AUDIENCE" client_id |}
  | _, _ => missing
  end.

(** The instance with identity [oid], when its attributes have the types
    the class annotates. *)
Definition settings_instance (oid : nat) (a : AzureADSettings_attrs)
    : option AzureADSettings :=
  match a_issuer a, a_openid_config_url a, a_audience a with
  | Some iss, Some url, Some aud =>
      Some {| obj_id := oid;
              tenant_id := a_tenant_id a;
              client_id := a_client_id a;
              issuer := iss;
              openid_config_url := url;
              jwks_uri := a_jwks_uri a;
              audience := aud |}
  | _, _, _ => None
  end.

(** [AzureADSettings()] where [ENV_VARIABLES] gives every variable it
    holds a value, as the process environment does and a [.env] file whose
    keys all have one: the attributes are strings as annotated.  [oid] is
    the identity of the new object. *)
Definition AzureADSettings_new (environ : gmap string string) (oid : nat)
    : result AzureADSettings :=
  let missing : result AzureADSettings :=
    Raise (RuntimeError
             "AZURE_AD_TENANT_ID y AZURE_AD_CLIENT_ID deben estar configurados en el entorno") in
  match environ !! "AZURE_AD_TENANT_ID", environ !! "AZURE_AD_CLIENT_ID" with
  | Some tenant_id, Some client_id =>
      if String.eqb tenant_id "" || String.eqb client_id "" then missing
      else
        Ok {| obj_id := oid;
              tenant_id := tenant_id;
              client_id := client_id;
              issuer :=
                default ("https://login.microsoftonline.com/" +:+ tenant_id +:+ "/v2.0")
                        (environ !! "AZURE_AD_ISSUER");
              openid_config_url :=
                default ("https://login.microsoftonline.com/" +:+ tenant_id
                         +:+ "/v2.0/.well-known/openid-configuration")
                        (environ !! "AZURE_AD_OPENID_CONFIG_URL");
              jwks_uri := environ !! "AZURE_AD_JWKS_URI";
              audience := default client_id (environ !! "AZURE_AD_AUDIENCE") |}
  | _, _ => missing
  end.

(** ** The process and its requests

    Beside the world of the validator the process holds the memo of
    [get_settings] and the number of settings objects built so far, which
    gives the next one its identity.  Requests are served one at a time. *)
Record Process : Type := {
  settings_cache : option AzureADSettings;
  objects : nat;
  world : World
}.

Definition initial_process : Process :=
  {| settings_cache := None; objects := 0; world := initial_world |}.

(** [@lru_cache() def get_settings(): return AzureADSettings()]: the object
    of the first call that returns is kept; a call that raises leaves the
    memo empty, and the next call builds again. *)
Definition get_settings (environ : gmap string string) (p : Process)
    : result AzureADSettings * Process :=
  match settings_cache p with
  | Some settings => (Ok settings, p)
  | None =>
      match AzureADSettings_new environ (objects p) with
      | Ok settings =>
          (Ok settings,
           {| settings_cache := Some settings; objects := S (objects p);
              world := world p |})
      | Raise e =>
          (Raise e,
           {| settings_cache := None; objects := S (objects p);
              world := world p |})
      end
  end.

(** One request [GET /auth/me].  FastAPI resolves the dependencies from the
    inside: [get_settings] first, whose exception ends the request before
    the header is read, then [get_current_user_claims] on the request and
    the settings, then the endpoint. *)
Definition GET_auth_me (E : Env) (environ : gmap string string)
    (request : Request) (p : Process) : result User * Process :=
  match get_settings environ p with
  | (Ok settings, p1) =>
      let r := auth_me E request settings (world p1) in
      (r.1, {| settings_cache := settings_cache p1; objects := objects p1;
               world := r.2 |})
  | (Raise e, p1) => (Raise e, p1)
  end.

(** The failure of an unconfigured process. *)
Definition MissingConfiguration : exn :=
  RuntimeError
    "AZURE_AD_TENANT_ID y AZURE_AD_CLIENT_ID deben estar configurados en el entorno".

(** The failures the module raises on purpose as an [HTTPException]. *)
Definition deliberate_failure (e : exn) : Prop :=
  e = MissingCredentials \/ e = MissingCredentials_empty \/ e = MissingKeyId
  \/ e = UnknownSigningKey \/ exists msg, e = TokenRejected msg.

(** An exception that, if it is an [HTTPException], is one of those. *)
Definition no_other_HTTPException (e : exn) : Prop :=
  match e with
  | HTTPException _ _ => deliberate_failure e
  | _ => True
  end.

(** A memo table as the decorator keeps it: one entry per key, at most
    [maxsize] entries. *)
Definition Lru_wf (c : Lru.cache) : Prop :=
  NoDup c.*1 /\ length c <= Lru.maxsize.


(** A computation whose exceptions all satisfy [P]. *)
Definition raises_only {A : Type} (P : exn -> Prop) (c : M A) : Prop :=
  forall w e w', c w = (Raise e, w') -> P e.

(** The requests a call may still send: two until its body has run. *)
Definition pending_requests (c : call_state) : nat :=
  match c with
  | Called | Missed => 2
  | Computed _ | Finished _ => 0
  end.

(** ** More concrete inputs

    A token whose header has an empty [kid]; a provider whose key endpoint
    answers with a JSON list; settings whose key endpoint does not connect
    and settings whose key endpoint does not parse; a process environment
    that sets only the two identifiers, beside a [.env] file that names
    another tenant; one without the client id; one that names the key
    endpoint. *)

Module Demo2.

Definition env_blank_kid : Env :=
  {| url_error := url_error Demo.env;
     http_get := http_get Demo.env;
     clock := clock Demo.env;
     jwt_get_unverified_header :=
       fun _ => inr {[ "alg" := JStr "RS256"; "kid" := JStr "" ]};
     jwt_get_unverified_claims := jwt_get_unverified_claims Demo.env;
     jwt_decode := jwt_decode Demo.env;
     repr := repr Demo.env |}.

Definition env_list_keys : Env :=
  {| url_error := url_error Demo.env;
     http_get := fun _ _ => Response 200 (Some (JList []));
     clock := clock Demo.env;
     jwt_get_unverified_header := jwt_get_unverified_header Demo.env;
     jwt_get_unverified_claims := jwt_get_unverified_claims Demo.env;
     jwt_decode := jwt_decode Demo.env;
     repr := repr Demo.env |}.

(** Settings whose key endpoint has a port that is not a number. *)
Definition settings_bad_port : AzureADSettings :=
  {| obj_id := 5;
     tenant_id := "T";
     client_id := "C";
     issuer := "https://login.example/T/v2.0";
     openid_config_url := Demo.discovery_url;
     jwks_uri := Some Demo.bad_port_url;
     audience := "api://C" |}.

Definition settings_down : AzureADSettings :=
  {| obj_id := 4;
     tenant_id := "T";
     client_id := "C";
     issuer := "https://login.example/T/v2.0";
     openid_config_url := Demo.discovery_url;
     jwks_uri := Some "https://down.example/keys";
     audience := "api://C" |}.

Definition os_environ : gmap string string :=
  {[ "AZURE_AD_TENANT_ID" := "T"; "AZURE_AD_CLIENT_ID" := "C" ]}.

(** A process environment without the client id. *)
Definition os_environ_partial : gmap string string :=
  {[ "AZURE_AD_TENANT_ID" := "T" ]}.

(** A process environment that names the key endpoint, and the settings
    object the first request builds from it. *)
Definition os_environ_explicit : gmap string string :=
  {[ "AZURE_AD_TENANT_ID" := "T"; "AZURE_AD_CLIENT_ID" := "C";
     "AZURE_AD_JWKS_URI" := Demo.keys_url ]}.

Definition settings_built : AzureADSettings :=
  {| obj_id := 0;
     tenant_id := "T";
     client_id := "C";
     issuer := "https://login.microsoftonline.com/T/v2.0";
     openid_config_url :=
       "https://login.microsoftonline.com/T/v2.0/.well-known/openid-configuration";
     jwks_uri := Some Demo.keys_url;
     audience := "C" |}.

Definition dotenv : gmap string (option string) :=
  {[ "AZURE_AD_TENANT_ID" := Some "other-tenant" ]}.

End Demo2.

(** * Properties *)

(** ** The model on examples, and the monad's equations *)

Lemma M_bind_Ok {A B : Type} (c : M A) (f : A -> M B) (w w' : World) (a : A) :
  c w = (Ok a, w') -> (c ≫= f) w = f a w'.
Proof. intros H. unfold mbind, M_bind. by rewrite H. Qed.

Lemma M_bind_Raise {A B : Type} (c : M A) (f : A -> M B) (w w' : World) (e : exn) :
  c w = (Raise e, w') -> (c ≫= f) w = (Raise e, w').
Proof. intros H. unfold mbind, M_bind. by rewrite H. Qed.

Lemma pair_fst_eq {A B : Type} (p : A * B) (a : A) : p.1 = a -> p = (a, p.2).
Proof. intros <-. apply surjective_pairing. Qed.

Example lower_mixed_case : Py.lower "BeArEr Tok" = "bearer tok".
Proof. reflexivity. Qed.

Example split1_first_space :
  Py.split1 " " "Bearer abc def" = ["Bearer"; "abc def"].
Proof. reflexivity. Qed.

Example split1_no_space : Py.split1 " " "Bearer" = ["Bearer"].
Proof. reflexivity. Qed.

Example strip_both_ends : Py.strip "  a b  " = "a b".
Proof. reflexivity. Qed.

Example eq_int_float_bool :
  Py.eq (JInt 1) (JFloat 1%float) = true /\ Py.eq (JBool true) (JInt 1) = true
  /\ Py.eq (JStr "1") (JInt 1) = false.
Proof. repeat split. Qed.

Example demo_validate_legacy :
  (validate_jwt Demo.env "legacy" Demo.settings initial_world).1
  = Raise (TokenRejected "Signature has expired.").
Proof. vm_compute. reflexivity. Qed.


(** ** Projection of claims *)

Section Projection.

Context (E : Env).

Lemma get_absent (d : gmap string json) (k : string) :
  d !! k = None -> Py.get d k = JNull.
Proof. intros H. unfold Py.get. by rewrite H. Qed.

(** The indexing [emails[0]] is guarded by the emptiness test: the email
    lookup never raises. *)
Lemma _extract_email_from_claims_total (claims : gmap string json) :
  exists v : json, _extract_email_from_claims claims = Ok v.
Proof.
  unfold _extract_email_from_claims.
  destruct (Py.truthy (Py.get claims "preferred_username")); [by eexists |].
  destruct (Py.truthy (Py.get claims "upn")); [by eexists |].
  destruct (Py.truthy (Py.get claims "email")); [by eexists |].
  destruct (Py.get claims "emails") as [| | | | |l|]; try by eexists.
  destruct l as [|x l]; [by eexists | by exists x].
Qed.

Lemma _extract_email_from_claims_absent (claims : gmap string json) :
  claims !! "preferred_username" = None -> claims !! "upn" = None ->
  claims !! "email" = None -> claims !! "emails" = None ->
  _extract_email_from_claims claims = Ok JNull.
Proof.
  intros H1 H2 H3 H4. unfold _extract_email_from_claims.
  by rewrite !get_absent.
Qed.

Lemma _extract_groups_from_claims_not_list (claims : gmap string json) :
  (forall l, claims !! "groups" <> Some (JList l)) ->
  _extract_groups_from_claims E claims = [].
Proof.
  intros H. unfold _extract_groups_from_claims, Py.or_, Py.get.
  destruct (claims !! "groups") as [g|] eqn:Hg; simpl; [|done].
  destruct g as [| |n|f|s|l|m]; simpl; try done.
  - by destruct b.
  - by destruct (negb _).
  - by destruct (negb _).
  - by destruct (negb _).
  - by destruct (H l).
  - by destruct (negb _).
Qed.

(** C4. For every claims map, the empty one included, the projection
    returns a record and raises nothing, and so does the endpoint built on
    it.  Without [oid] and [sub] the id is [None]; without [name] the name
    is [None]; without [preferred_username], [upn], [email] and [emails]
    the email is [None]; when [groups] is missing or is not a list the
    groups are the empty list. *)
Theorem build_user_info_from_claims_total (claims : gmap string json) :
  exists u : UserInfo,
    build_user_info_from_claims E claims = Ok u
    /\ read_current_user E claims
       = Ok {| user_id := ui_id u; user_name := ui_name u;
               user_email := ui_email u; user_groups := ui_groups u |}
    /\ ui_raw_claims u = claims
    /\ (claims !! "oid" = None -> claims !! "sub" = None -> ui_id u = JNull)
    /\ (claims !! "name" = None -> ui_name u = JNull)
    /\ (claims !! "preferred_username" = None -> claims !! "upn" = None ->
        claims !! "email" = None -> claims !! "emails" = None ->
        ui_email u = JNull)
    /\ ((forall l, claims !! "groups" <> Some (JList l)) -> ui_groups u = []).
Proof.
  destruct (_extract_email_from_claims_total claims) as [email Hemail].
  unfold read_current_user, build_user_info_from_claims.
  rewrite Hemail. simpl. eexists. split; [reflexivity |]. simpl.
  split; [reflexivity |]. split; [reflexivity |].
  split; [| split; [| split]].
  - intros H1 H2. unfold Py.or_. by rewrite !get_absent.
  - intros H. by rewrite get_absent.
  - intros H1 H2 H3 H4.
    rewrite (_extract_email_from_claims_absent claims) in Hemail; congruence.
  - apply _extract_groups_from_claims_not_list.
Qed.

End Projection.

(** The empty claims map projects to a record with every field absent. *)
Lemma build_user_info_from_claims_total_witness :
  build_user_info_from_claims Demo.env ∅
  = Ok {| ui_id := JNull; ui_name := JNull; ui_email := JNull;
          ui_groups := []; ui_raw_claims := ∅ |}.
Proof.
  destruct (build_user_info_from_claims_total Demo.env ∅)
    as (u & Hu & _ & Hraw & Hid & Hname & Hemail & Hgroups).
  rewrite Hu. destruct u as [i n e g r]. simpl in *.
  rewrite Hraw, (Hid eq_refl eq_refl), (Hname eq_refl),
    (Hemail eq_refl eq_refl eq_refl eq_refl).
  - rewrite Hgroups; [reflexivity |]. intros l. discriminate.
Defined.

(** The scenario of the specification: the email comes from
    [preferred_username], the groups are kept as strings. *)
Example project_scenario :
  read_current_user Demo.env
    {[ "preferred_username" := JStr "a@b.com";
       "groups" := JList [JStr "g1"; JStr "g2"] ]}
  = Ok {| user_id := JNull; user_name := JNull;
          user_email := JStr "a@b.com"; user_groups := ["g1"; "g2"] |}.
Proof. vm_compute. reflexivity. Qed.

(** ** The verification loop *)

Section Loop.
Context (E : Env) (token : string) (key : gmap string json).

(** One turn of the loop: the call of [jwt.decode], then the [return], the
    [except] clause or the exception that passes through it. *)
Lemma try_pairs_cons aud iss rest last_error w :
  try_pairs E token key ((aud, iss) :: rest) last_error w
  = let w1 := add_decode {| dc_audience := aud; dc_issuer := iss;
                            dc_now := clock E (length (decode_log w)) |} w in
    match jwt_decode E (clock E (length (decode_log w))) token key aud iss with
    | Ok claims =>
        (Ok (Returned claims),
         add_log (INFO, "Token validado exitosamente. Aud: " +:+ aud
                        +:+ ", Iss: " +:+ iss) w1)
    | Raise e =>
        match caught (Raise e) with
        | Some msg => try_pairs E token key rest (Some msg) w1
        | None => (Raise e, w1)
        end
    end.
Proof.
  simpl. unfold try_except_JWTError, mbind, M_bind, decode.
  by destruct (jwt_decode E _ token key aud iss) as [claims|[]].
Qed.

Lemma for_issuers_cons aud iss rest last_error w :
  for_issuers E token key aud (iss :: rest) last_error w
  = let w1 := add_decode {| dc_audience := aud; dc_issuer := iss;
                            dc_now := clock E (length (decode_log w)) |} w in
    match jwt_decode E (clock E (length (decode_log w))) token key aud iss with
    | Ok claims =>
        (Ok (Returned claims),
         add_log (INFO, "Token validado exitosamente. Aud: " +:+ aud
                        +:+ ", Iss: " +:+ iss) w1)
    | Raise e =>
        match caught (Raise e) with
        | Some msg => for_issuers E token key aud rest (Some msg) w1
        | None => (Raise e, w1)
        end
    end.
Proof.
  simpl. unfold try_except_JWTError, mbind, M_bind, decode.
  by destruct (jwt_decode E _ token key aud iss) as [claims|[]].
Qed.

Lemma for_issuers_flat aud issuers last_error w :
  for_issuers E token key aud issuers last_error w
  = try_pairs E token key ((fun iss => (aud, iss)) <$> issuers) last_error w.
Proof.
  revert last_error w. induction issuers as [|iss rest IH]; intros last_error w.
  - reflexivity.
  - rewrite fmap_cons, for_issuers_cons, try_pairs_cons. cbv zeta.
    destruct (jwt_decode E _ token key aud iss) as [claims|e]; [reflexivity |].
    destruct (caught (Raise e)); [apply IH | reflexivity].
Qed.

Lemma try_pairs_app ps qs last_error w :
  try_pairs E token key (ps ++ qs) last_error w
  = match try_pairs E token key ps last_error w with
    | (Ok (Exhausted last_error'), w') => try_pairs E token key qs last_error' w'
    | other => other
    end.
Proof.
  revert last_error w. induction ps as [|[aud iss] rest IH]; intros last_error w.
  - reflexivity.
  - rewrite <- app_comm_cons, !try_pairs_cons. cbv zeta.
    destruct (jwt_decode E _ token key aud iss) as [claims|e]; [reflexivity |].
    destruct (caught (Raise e)); [apply IH | reflexivity].
Qed.

Lemma for_audiences_flat audiences issuers last_error w :
  for_audiences E token key audiences issuers last_error w
  = try_pairs E token key
      (aud ← audiences; (fun iss => (aud, iss)) <$> issuers) last_error w.
Proof.
  revert last_error w. induction audiences as [|aud rest IH]; intros last_error w.
  - reflexivity.
  - simpl. rewrite try_pairs_app. unfold mbind at 1, M_bind.
    rewrite for_issuers_flat.
    destruct (try_pairs E token key _ last_error w) as [[[claims|le]|e] w'];
      [reflexivity | apply IH | reflexivity].
Qed.

Lemma try_pairs_spec pairs last_error w :
  let n0 := length (decode_log w) in
  let outcomes := imap (attempt_outcome E token key n0) pairs in
  let calls := imap (attempt_call E n0) pairs in
  exists w',
    decode_log w' = decode_log w
                    ++ match first_exit outcomes with
                       | Some (i, _) => take (S i) calls
                       | None => calls
                       end
    /\ try_pairs E token key pairs last_error w
       = (match first_exit outcomes with
          | Some (_, Ok claims) => Ok (Returned claims)
          | Some (_, Raise e) => Raise e
          | None => Ok (Exhausted (last_failure outcomes last_error))
          end, w').
Proof.
  revert last_error w. induction pairs as [|[aud iss] rest IH]; intros last_error w.
  - exists w. simpl. by rewrite app_nil_r.
  - assert (Hhead : attempt_outcome E token key (length (decode_log w)) 0 (aud, iss)
                   = jwt_decode E (clock E (length (decode_log w))) token key aud iss).
    { unfold attempt_outcome. simpl. by rewrite Nat.add_0_r. }
    assert (Hcall0 : attempt_call E (length (decode_log w)) 0 (aud, iss)
                   = {| dc_audience := aud; dc_issuer := iss;
                        dc_now := clock E (length (decode_log w)) |}).
    { unfold attempt_call. simpl. by rewrite Nat.add_0_r. }
    assert (Hout : imap (attempt_outcome E token key (length (decode_log w)) ∘ S) rest
                   = imap (attempt_outcome E token key (length (decode_log w) + 1)) rest).
    { apply imap_ext. intros i p _. unfold attempt_outcome. simpl.
      by replace (length (decode_log w) + S i)
        with (length (decode_log w) + 1 + i) by lia. }
    assert (Hcall : imap (attempt_call E (length (decode_log w)) ∘ S) rest
                    = imap (attempt_call E (length (decode_log w) + 1)) rest).
    { apply imap_ext. intros i p _. unfold attempt_call. simpl.
      by replace (length (decode_log w) + S i)
        with (length (decode_log w) + 1 + i) by lia. }
    rewrite try_pairs_cons. cbv zeta. rewrite !imap_cons.
    rewrite Hhead, Hcall0, Hout, Hcall.
    cbn [first_exit last_failure].
    destruct (jwt_decode E _ token key aud iss) as [claims|e].
    + eexists. split; [| reflexivity]. reflexivity.
    + destruct (caught (Raise e)) as [msg|].
      * destruct (IH (Some msg) (add_decode
           {| dc_audience := aud; dc_issuer := iss;
              dc_now := clock E (length (decode_log w)) |} w)) as (w' & Hlog & Hrun).
        simpl in Hlog, Hrun. rewrite length_app in Hlog, Hrun. simpl in Hlog, Hrun.
        exists w'. rewrite Hrun, Hlog, <- app_assoc.
        by destruct (first_exit _) as [[i r]|].
      * eexists. split; [| reflexivity]. reflexivity.
Qed.
End Loop.

(** ** Effects and the components of the world they leave alone *)

Section Keeps.

Context {X : Type} (field : World -> X).

Lemma keeps_bind {A B : Type} (c : M A) (f : A -> M B) :
  keeps field c -> (forall a, keeps field (f a)) -> keeps field (c ≫= f).
Proof.
  intros Hc Hf w. unfold mbind, M_bind. specialize (Hc w).
  destruct (c w) as [[a|e] w']; simpl in *; [| done].
  by rewrite Hf.
Qed.

Lemma keeps_try_except_JWTError {A : Type} (body : M A)
    (handler : string -> M A) :
  keeps field body -> (forall e, keeps field (handler e)) ->
  keeps field (try_except_JWTError body handler).
Proof.
  intros Hb Hh w. unfold try_except_JWTError. specialize (Hb w).
  destruct (body w) as [[a|[]] w']; simpl in *; try done.
  by rewrite Hh.
Qed.

Lemma keeps_ret {A : Type} (a : A) : keeps field (mret a).
Proof. by intros w. Qed.

Lemma keeps_raise {A : Type} (e : exn) : keeps field (@raise A e).
Proof. by intros w. Qed.

Lemma keeps_lift {A : Type} (r : result A) : keeps field (lift r).
Proof. by intros w. Qed.

Lemma keeps_logger lv msg :
  (forall r w, field (add_log r w) = field w) -> keeps field (logger lv msg).
Proof. intros H w. apply H. Qed.

Lemma keeps_client_get E url :
  (forall u w, field (add_http u w) = field w) -> keeps field (client_get E url).
Proof.
  intros H w. destruct url; try done. simpl.
  destruct (url_error E _); [done |].
  destruct (http_get E _ _); apply H.
Qed.

Lemma keeps_lru_cache m f settings :
  (forall c w, field (set_memo_cache m c w) = field w) ->
  keeps field (f settings) -> keeps field (lru_cache m f settings).
Proof.
  intros Hm Hf w. unfold lru_cache.
  destruct (Lru.lookup _ _) as [[v c]|]; [apply Hm |].
  specialize (Hf w). destruct (f settings w) as [[v|e] w']; [| done].
  simpl in *. by rewrite Hm.
Qed.

End Keeps.

(** Splits a [keeps] goal along the structure of the computation. *)
Ltac keeps_step :=
  first
    [ apply keeps_ret | apply keeps_raise | apply keeps_lift
    | apply keeps_logger; reflexivity
    | apply keeps_client_get; reflexivity
    | apply keeps_bind; [| intros ?] ].

Lemma keeps_decode_log_get_openid_config E settings :
  keeps decode_log (get_openid_config E settings).
Proof.
  apply keeps_lru_cache; [by intros c w |].
  unfold get_openid_config_body. repeat keeps_step.
Qed.

Lemma keeps_jwks_cache_get_openid_config E settings :
  keeps jwks_cache (get_openid_config E settings).
Proof.
  apply keeps_lru_cache; [by intros c w |].
  unfold get_openid_config_body. repeat keeps_step.
Qed.

Lemma keeps_decode_log_get_jwks E settings :
  keeps decode_log (get_jwks E settings).
Proof.
  apply keeps_lru_cache; [by intros c w |]. unfold get_jwks_body.
  keeps_step; [| repeat keeps_step].
  destruct (negb _); [| keeps_step].
  keeps_step; [apply keeps_decode_log_get_openid_config |].
  keeps_step; [keeps_step |]. destruct (negb _); keeps_step.
Qed.

Lemma keeps_jwks_cache_get_jwks_body E settings :
  keeps jwks_cache (get_jwks_body E settings).
Proof.
  unfold get_jwks_body.
  keeps_step; [| repeat keeps_step].
  destruct (negb _); [| keeps_step].
  keeps_step; [apply keeps_jwks_cache_get_openid_config |].
  keeps_step; [keeps_step |]. destruct (negb _); keeps_step.
Qed.

Lemma keeps_decode_log_log_unverified_claims E token :
  keeps decode_log (log_unverified_claims E token).
Proof.
  unfold log_unverified_claims.
  destruct (jwt_get_unverified_claims E token); repeat keeps_step.
Qed.

Lemma log_unverified_claims_returns E token w :
  exists w', log_unverified_claims E token w = (Ok tt, w').
Proof.
  unfold log_unverified_claims.
  destruct (jwt_get_unverified_claims E token); by eexists.
Qed.

Section Validate.
Context (E : Env).

(** Once the key set is there and the key is found, [validate_jwt] is the
    flat loop over the four candidates followed by the final [raise]. *)
Lemma validate_jwt_loop token settings w jwks w1 key :
  get_jwks E settings w = (Ok jwks, w1) ->
  _get_signing_key E token jwks = Ok key ->
  exists w2,
    decode_log w2 = decode_log w1
    /\ validate_jwt E token settings w
       = match try_pairs E token key (candidate_pairs settings) None w2 with
         | (Ok (Returned claims), w3) => (Ok claims, w3)
         | (Ok (Exhausted last_error), w3) =>
             (Raise (TokenRejected (str_last_error last_error)),
              add_log (ERROR,
                       "Error validando token JWT (todas las combinaciones fallaron): "
                       +:+ str_last_error last_error) w3)
         | (Raise e, w3) => (Raise e, w3)
         end.
Proof.
  intros Hjwks Hkey. unfold validate_jwt.
  rewrite (M_bind_Ok _ _ _ _ _ Hjwks). rewrite Hkey.
  erewrite M_bind_Ok by reflexivity.
  erewrite M_bind_Ok by reflexivity.
  erewrite M_bind_Ok by reflexivity.
  match goal with
  | |- context [mbind _ (log_unverified_claims E token) ?w0] =>
      destruct (log_unverified_claims_returns E token w0) as [w2 Hw2];
      pose proof (keeps_decode_log_log_unverified_claims E token w0) as Hlog
  end.
  exists w2. rewrite Hw2 in Hlog. split; [exact Hlog |].
  rewrite (M_bind_Ok _ _ _ _ _ Hw2).
  unfold mbind at 1, M_bind at 1. rewrite for_audiences_flat.
  change (aud ← [audience settings; client_id settings];
          (fun iss => (aud, iss)) <$> [issuer settings; legacy_issuer settings])
    with (candidate_pairs settings).
  by destruct (try_pairs E token key _ None w2) as [[[claims|le]|e] w3].
Qed.
End Validate.

(** ** The outcome of [validate_jwt] *)

Section ValidateClaims.
Context (E : Env).

Lemma caught_Some (r : result (gmap string json)) (e : string) :
  caught r = Some e <-> r = Raise (JWTError e).
Proof.
  split; [| by intros ->].
  destruct r as [claims|[]]; simpl; try discriminate. by intros [= ->].
Qed.

Lemma caught_None (r : result (gmap string json)) :
  caught r = None <-> forall e, r <> Raise (JWTError e).
Proof.
  split.
  - intros H e ->. discriminate.
  - intros H. destruct r as [claims|[]]; simpl; try done. by destruct (H msg).
Qed.

Lemma first_exit_Some (l : list (result (gmap string json))) i r :
  first_exit l = Some (i, r) <->
  l !! i = Some r /\ caught r = None
  /\ forall j, j < i -> exists e, l !! j = Some (Raise (JWTError e)).
Proof.
  split.
  - revert i. induction l as [|x l IH]; intros i H; simpl in H; [discriminate |].
    destruct (caught x) as [e|] eqn:Hx.
    + destruct (first_exit l) as [[i' r']|]; [| discriminate].
      injection H as <- <-. destruct (IH i' eq_refl) as (Hi & Hr & Hlt).
      split; [done |]. split; [done |].
      intros [|j] Hj; [| apply Hlt; lia].
      exists e. simpl. f_equal. by apply caught_Some.
    + injection H as <- <-. split; [done |]. split; [done |]. intros j Hj. lia.
  - revert i. induction l as [|x l IH]; intros i (Hi & Hr & Hlt); [discriminate |].
    simpl. destruct (caught x) as [e|] eqn:Hx.
    + destruct i as [|i].
      * injection Hi as ->. congruence.
      * simpl in Hi. rewrite (IH i); [done |]. split; [done |]. split; [done |].
        intros j Hj. apply (Hlt (S j)). lia.
    + destruct i as [|i]; [by injection Hi as -> |].
      destruct (Hlt 0) as [e He]; [lia |]. injection He as ->. discriminate.
Qed.


(** What a call that reaches the loop does: it runs the candidates in
    order up to the first one that does not raise a [JWTError], and the
    outcome of that one is the outcome of the call. *)
Lemma validate_jwt_outcome token settings w jwks w1 key :
  get_jwks E settings w = (Ok jwks, w1) ->
  _get_signing_key E token jwks = Ok key ->
  let n0 := length (decode_log w1) in
  let outcomes := imap (attempt_outcome E token key n0) (candidate_pairs settings) in
  let calls := imap (attempt_call E n0) (candidate_pairs settings) in
  match first_exit outcomes with
  | Some (i, r) =>
      (validate_jwt E token settings w).1 = r
      /\ decode_log (validate_jwt E token settings w).2
         = decode_log w1 ++ take (S i) calls
  | None =>
      (validate_jwt E token settings w).1
      = Raise (TokenRejected (str_last_error (last_failure outcomes None)))
      /\ decode_log (validate_jwt E token settings w).2 = decode_log w1 ++ calls
  end.
Proof.
  intros Hjwks Hkey n0 outcomes calls.
  destruct (validate_jwt_loop E token settings w jwks w1 key Hjwks Hkey)
    as (w2 & Hlog2 & Hrun).
  destruct (try_pairs_spec E token key (candidate_pairs settings) None w2)
    as (w3 & Hlog3 & Hloop).
  rewrite Hlog2 in Hlog3, Hloop. fold n0 outcomes calls in Hlog3, Hloop.
  rewrite Hrun, Hloop.
  destruct (first_exit outcomes) as [[i [claims|e]]|]; simpl; by rewrite Hlog3.
Qed.



(** C3, as the code has it.  [validate_jwt] reads no clock.  The calls of
    [jwt.decode] made by one call of [validate_jwt] are an initial segment
    of the four candidates, and the [i]-th of them runs at the time the
    clock shows for that call, [clock (n0 + i)], where [n0] counts the
    [jwt.decode] calls made before: each attempt has its own time sample. *)
Theorem validate_jwt_attempt_times token settings w :
  let n0 := length (decode_log w) in
  let w' := (validate_jwt E token settings w).2 in
  exists k,
    decode_log w'
    = decode_log w ++ take k (imap (attempt_call E n0) (candidate_pairs settings)).
Proof.
  intros n0 w'. subst w'.
  pose proof (keeps_decode_log_get_jwks E settings w) as Hkeep.
  destruct (get_jwks E settings w) as [[jwks|e] w1] eqn:Hjwks; simpl in Hkeep.
  - destruct (_get_signing_key E token jwks) as [key|e] eqn:Hkey.
    + pose proof (validate_jwt_outcome token settings w jwks w1 key
                    Hjwks Hkey) as H.
      cbv zeta in H. rewrite Hkeep in H. fold n0 in H.
      destruct (first_exit _) as [[i r]|].
      * exists (S i). by destruct H as [_ ->].
      * exists 4. by destruct H as [_ ->].
    + exists 0. unfold validate_jwt. rewrite (M_bind_Ok _ _ _ _ _ Hjwks), Hkey.
      simpl. by rewrite app_nil_r.
  - exists 0. unfold validate_jwt. rewrite (M_bind_Raise _ _ _ _ _ Hjwks).
    simpl. by rewrite app_nil_r.
Qed.

End ValidateClaims.



(** Hence the loop has a third way to end. *)
Lemma not_stops_at_first_success_only :
  ~ stops_at_first_success_only Demo.env_ec "legacy" Demo.settings initial_world.
Proof.
  intros H.
  destruct (H Demo.jwks_ec (get_jwks Demo.env_ec Demo.settings initial_world).2
              Demo.key_ec) as [[claims Hc] | Hlen].
  - apply pair_fst_eq. vm_compute. reflexivity.
  - vm_compute. reflexivity.
  - vm_compute in Hc. discriminate Hc.
  - vm_compute in Hlen. discriminate Hlen.
Qed.


(** C3, as stated, fails.  The four attempts of one call run at 999, 1001,
    1003 and 1005; the token expires at 1000 and only the second pair
    carries its issuer, so the call rejects it as expired.  With the one
    sample 999 for all four attempts the same call accepts it. *)
Lemma attempts_read_the_clock_again :
  (validate_jwt Demo.env "legacy" Demo.settings initial_world).1
  = Raise (TokenRejected "Signature has expired.")
  /\ (validate_jwt (freeze_clock Demo.env 0) "legacy" Demo.settings initial_world).1
     = Ok Demo.legacy_claims
  /\ dc_now <$> decode_log (validate_jwt Demo.env "legacy" Demo.settings initial_world).2
     = [999; 1001; 1003; 1005]%Z.
Proof. split; [| split]; vm_compute; reflexivity. Qed.

(** ** The [Authorization] header *)

Lemma M_bind_mret {A : Type} (c : M A) (w : World) : (c ≫= mret) w = c w.
Proof. unfold mbind, M_bind, mret, M_ret. by destruct (c w) as [[a|e] w']. Qed.

Lemma lower_char_space (c : ascii) :
  Ascii.eqb (Py.lower_char c) " " = Ascii.eqb c " ".
Proof. destruct c as [[] [] [] [] [] [] [] []]; reflexivity. Qed.

Lemma lower_char_not_space (c l : ascii) :
  Ascii.eqb l (Py.lower_char c) = true -> Ascii.eqb l " " = false ->
  Ascii.eqb c " " = false.
Proof.
  intros Hl Hs. apply Ascii.eqb_eq in Hl. subst l.
  by rewrite lower_char_space in Hs.
Qed.

Lemma lower_char_is_space (c : ascii) :
  Ascii.eqb " " (Py.lower_char c) = true -> Ascii.eqb c " " = true.
Proof.
  intros Hl. rewrite <- lower_char_space. rewrite Ascii.eqb_sym. exact Hl.
Qed.

Lemma startswith_lower_cons (a c : ascii) (p v : string) :
  Py.startswith (Py.lower (String c v)) (String a p)
  = Ascii.eqb a (Py.lower_char c) && Py.startswith (Py.lower v) p.
Proof. reflexivity. Qed.

Lemma partition_cons (sep c : ascii) (s : string) :
  Py.partition sep (String c s)
  = if Ascii.eqb c sep then Some (EmptyString, s)
    else match Py.partition sep s with
         | Some (a, b) => Some (String c a, b)
         | None => None
         end.
Proof. reflexivity. Qed.

(** A value that starts with "bearer " in any letter case has its first
    space at index 6: [split(" ", 1)] has two parts and the second is
    [v[7:]]. *)
Lemma bearer_partition (v : string) :
  Py.startswith (Py.lower v) "bearer " = true ->
  Py.partition " " v = Some (String.substring 0 6 v, slice_from 7 v).
Proof.
  intros H.
  do 6 (destruct v as [|c v]; [discriminate H |];
        rewrite startswith_lower_cons in H;
        apply andb_prop in H as [Hc H];
        rewrite partition_cons, (lower_char_not_space c _ Hc eq_refl);
        clear Hc; revert c).
  destruct v as [|c v]; [discriminate H |].
  rewrite startswith_lower_cons in H. apply andb_prop in H as [Hc _].
  rewrite partition_cons, (lower_char_is_space c Hc). reflexivity.
Qed.


Section Gateway.
Context (E : Env).

Lemma get_current_user_claims_refused request settings w :
  match headers_get request "Authorization" with
  | None => True
  | Some v => Py.startswith (Py.lower v) "bearer " = false
  end ->
  get_current_user_claims E request settings w
  = (Raise MissingCredentials, refused w).
Proof.
  intros H. unfold get_current_user_claims.
  erewrite M_bind_Ok by reflexivity.
  destruct (headers_get request "Authorization") as [v|]; [| reflexivity].
  rewrite H. rewrite orb_true_r. reflexivity.
Qed.

Lemma get_current_user_claims_bearer request settings w v :
  headers_get request "Authorization" = Some v ->
  Py.startswith (Py.lower v) "bearer " = true ->
  let token := Py.strip (slice_from 7 v) in
  get_current_user_claims E request settings w
  = if String.eqb token "" then (Raise MissingCredentials_empty, refused_empty w)
    else validate_jwt E token settings (received token w).
Proof.
  intros Hget Hb token. unfold get_current_user_claims.
  erewrite M_bind_Ok by reflexivity. rewrite Hget, Hb.
  assert (Hne : String.eqb v "" = false) by (by destruct v).
  rewrite Hne. unfold Py.split1. rewrite (bearer_partition v Hb).
  change (false || negb true) with false. cbv iota.
  erewrite M_bind_Ok by reflexivity. fold token.
  destruct (String.eqb token ""); [reflexivity |].
  erewrite M_bind_Ok by reflexivity. apply M_bind_mret.
Qed.

Lemma read_current_user_returns (claims : gmap string json) :
  exists u : UserInfo,
    build_user_info_from_claims E claims = Ok u
    /\ read_current_user E claims
       = Ok {| user_id := ui_id u; user_name := ui_name u;
               user_email := ui_email u; user_groups := ui_groups u |}.
Proof.
  destruct (_extract_email_from_claims_total claims) as [email Hemail].
  unfold read_current_user, build_user_info_from_claims.
  rewrite Hemail. by eexists.
Qed.



End Gateway.



(** ** The memo table *)

Lemma Lru_find_lookup k c v c' :
  Lru.lookup k c = Some (v, c') -> Lru.find k c = Some v /\ Lru.find k c' = Some v.
Proof.
  unfold Lru.lookup. destruct (Lru.find k c) as [v0|] eqn:Hf; [| discriminate].
  intros [= <- <-]. split; [done |]. simpl. by rewrite Nat.eqb_refl.
Qed.

Lemma Lru_lookup_None k c : Lru.lookup k c = None -> Lru.find k c = None.
Proof. unfold Lru.lookup. by destruct (Lru.find k c). Qed.

Lemma Lru_find_store k v c :
  Lru.find k c = None -> Lru.find k (Lru.store k v c) = Some v.
Proof.
  intros H. unfold Lru.store. rewrite H.
  destruct (length c <? Lru.maxsize); simpl; by rewrite Nat.eqb_refl.
Qed.

Section KeySet.
Context (E : Env).

(** A call of [get_jwks] that finds the key set in the table sends nothing. *)
Lemma get_jwks_cached settings w v :
  Lru.find (obj_id settings) (jwks_cache w) = Some v ->
  (get_jwks E settings w).1 = Ok v
  /\ http_log (get_jwks E settings w).2 = http_log w
  /\ Lru.find (obj_id settings) (jwks_cache (get_jwks E settings w).2) = Some v.
Proof.
  intros H. unfold get_jwks, lru_cache, Lru.lookup. simpl. rewrite H. simpl.
  by rewrite Nat.eqb_refl.
Qed.

(** A call of [get_jwks] that returns leaves its result in the table. *)
Lemma get_jwks_stores settings w v w1 :
  get_jwks E settings w = (Ok v, w1) ->
  Lru.find (obj_id settings) (jwks_cache w1) = Some v.
Proof.
  unfold get_jwks, lru_cache. simpl.
  destruct (Lru.lookup _ _) as [[v0 c0]|] eqn:Hl.
  - intros [= <- <-]. by apply Lru_find_lookup in Hl as [_ ?].
  - pose proof (keeps_jwks_cache_get_jwks_body E settings w) as Hk.
    destruct (get_jwks_body E settings w) as [[v0|e] w0]; [| discriminate].
    intros [= <- <-]. simpl in *. rewrite Hk.
    by apply Lru_find_store, Lru_lookup_None.
Qed.

(** The requests of one successful call of [get_jwks]: none when the key
    set is in the table; otherwise one GET of the key set, preceded by one
    GET of the discovery document when that is needed and not in its
    table. *)
Lemma get_jwks_requests settings w v w1 :
  get_jwks E settings w = (Ok v, w1) ->
  match Lru.find (obj_id settings) (jwks_cache w) with
  | Some _ => http_log w1 = http_log w
  | None =>
      exists u, http_log w1 = http_log w ++ [u]
                \/ http_log w1 = http_log w ++ [openid_config_url settings; u]
  end.
Proof.
  unfold get_jwks, lru_cache. simpl.
  destruct (Lru.lookup _ _) as [[v0 c0]|] eqn:Hl.
  - apply Lru_find_lookup in Hl as [-> _]. by intros [= <- <-].
  - rewrite (Lru_lookup_None _ _ Hl).
    destruct (get_jwks_body E settings w) as [[v0|e] w0] eqn:Hbody; [| discriminate].
    intros [= <- <-]. simpl. revert Hbody. unfold get_jwks_body.
    assert (Hget : forall (u : json) w2 v2 w3,
               (resp ← client_get E u;
                _ ← lift (raise_for_status resp);
                lift (resp_json resp)) w2 = (Ok v2, w3) ->
               exists s, u = JStr s /\ http_log w3 = http_log w2 ++ [s]).
    { intros u w2 v2 w3. unfold mbind, M_bind, client_get, lift, raise.
      destruct u; try discriminate.
      destruct (url_error E _); [discriminate |].
      destruct (http_get E _ _); [discriminate |].
      destruct (raise_for_status _); [| discriminate].
      destruct (resp_json _); [| discriminate].
      intros [= <- <-]. by eexists. }
    destruct (negb (Py.truthy _)).
    + unfold mbind at 1, M_bind at 1. unfold mbind at 1, M_bind at 1.
      destruct (get_openid_config E settings w) as [[config|e] w2] eqn:Hcfg;
        [| discriminate].
      unfold mbind at 1, M_bind at 1, lift at 1.
      destruct (config_get config "jwks_uri") as [u|e]; [| discriminate].
      destruct (negb (Py.truthy u)); [discriminate |].
      unfold mret at 1, M_ret at 1. intros Hrest.
      destruct (Hget u w2 v0 w0 Hrest) as (s & -> & Hlog).
      exists s. revert Hcfg. unfold get_openid_config, lru_cache. simpl.
      destruct (Lru.lookup _ (openid_config_cache w)) as [[v1 c1]|].
      * intros [= <- <-]. left. exact Hlog.
      * unfold get_openid_config_body, mbind, M_bind, client_get, lift, raise.
        destruct (url_error E _); [discriminate |].
        destruct (http_get E _ _); [discriminate |].
        destruct (raise_for_status _); [| discriminate].
        destruct (resp_json _); [| discriminate].
        intros [= <- <-]. right. rewrite Hlog. simpl. by rewrite <- app_assoc.
    + unfold mbind at 1, M_bind at 1, mret at 1, M_ret at 1. intros Hrest.
      destruct (Hget _ w v0 w0 Hrest) as (s & _ & Hlog).
      exists s. by left.
Qed.

(** ** Key resolution *)

Lemma find_signing_key_no_match (kid : json) (keys : list (gmap string json)) :
  forallb (fun key => negb (Py.eq (Py.get key "kid") kid)) keys = true ->
  find_signing_key kid (JObj <$> keys) = Raise UnknownSigningKey.
Proof.
  induction keys as [|key keys IH]; simpl; intros H; [reflexivity |].
  apply andb_prop in H as [Hkey Hrest].
  apply negb_true_iff in Hkey. rewrite Hkey. by apply IH.
Qed.

(** When [validate_jwt] fails in [_get_signing_key] the world is the one
    [get_jwks] left. *)
Lemma validate_jwt_key_failure token settings w jwks w1 e :
  get_jwks E settings w = (Ok jwks, w1) ->
  _get_signing_key E token jwks = Raise e ->
  validate_jwt E token settings w = (Raise e, w1).
Proof.
  intros Hjwks Hkey. unfold validate_jwt.
  rewrite (M_bind_Ok _ _ _ _ _ Hjwks), Hkey. reflexivity.
Qed.

(** C6. Let the key set be available and the header of the token parse.
    If the header has no [kid], key resolution and [validate_jwt] fail with
    the 401 "Token sin 'kid' en el encabezado".  If it has a [kid] and no
    entry of the key set carries it, they fail with the 401 "No se encontró
    clave de firma para el token".  Either way the world is the one the
    single [get_jwks] call of [validate_jwt] left: nothing is fetched after
    the miss, and that call sent no request when the key set was in the
    table, and otherwise one GET of the key set, after at most one GET of
    the discovery document. *)
Theorem signing_key_resolution token settings w jwks w1 headers :
  get_jwks E settings w = (Ok jwks, w1) ->
  jwt_get_unverified_header E token = inr headers ->
  (headers !! "kid" = None ->
   _get_signing_key E token jwks = Raise MissingKeyId
   /\ validate_jwt E token settings w = (Raise MissingKeyId, w1))
  /\ (forall d keys,
        Py.truthy (Py.get headers "kid") = true ->
        jwks = JObj d ->
        Py.get_default d "keys" (JList []) = JList (JObj <$> keys) ->
        forallb (fun key => negb (Py.eq (Py.get key "kid") (Py.get headers "kid")))
                keys = true ->
        _get_signing_key E token jwks = Raise UnknownSigningKey
        /\ validate_jwt E token settings w = (Raise UnknownSigningKey, w1))
  /\ match Lru.find (obj_id settings) (jwks_cache w) with
     | Some _ => http_log w1 = http_log w
     | None =>
         exists u, http_log w1 = http_log w ++ [u]
                   \/ http_log w1 = http_log w ++ [openid_config_url settings; u]
     end.
Proof.
  intros Hjwks Hhdr. split; [| split].
  - intros Hkid.
    assert (Hkey : _get_signing_key E token jwks = Raise MissingKeyId).
    { unfold _get_signing_key. rewrite Hhdr. simpl.
      unfold Py.get. by rewrite Hkid. }
    split; [exact Hkey |]. by apply (validate_jwt_key_failure _ _ _ jwks).
  - intros d keys Hkid -> Hkeys Hnone.
    assert (Hkey : _get_signing_key E token (JObj d) = Raise UnknownSigningKey).
    { unfold _get_signing_key. rewrite Hhdr. simpl. rewrite Hkid. simpl.
      rewrite Hkeys. simpl. by apply find_signing_key_no_match. }
    split; [exact Hkey |]. by apply (validate_jwt_key_failure _ _ _ (JObj d)).
  - by apply (get_jwks_requests settings w jwks).
Qed.

(** C9. When the header of the token does not parse, the [JWTError] of
    [jwt.get_unverified_header] leaves [validate_jwt] as it is: it is not an
    [HTTPException] and carries no 401. *)
Theorem unparsable_header_escapes token settings w jwks w1 msg :
  get_jwks E settings w = (Ok jwks, w1) ->
  jwt_get_unverified_header E token = inl msg ->
  validate_jwt E token settings w = (Raise (JWTError msg), w1)
  /\ is_unauthorized (JWTError msg) = false
  /\ (forall st detail, JWTError msg <> HTTPException st detail).
Proof.
  intros Hjwks Hhdr. split; [| split; [reflexivity | discriminate]].
  apply (validate_jwt_key_failure _ _ _ jwks); [exact Hjwks |].
  unfold _get_signing_key. by rewrite Hhdr.
Qed.

(** ** The discovery document *)

(** A first use of [get_openid_config], case by case on what the GET
    comes back with. *)
Lemma get_openid_config_first_use settings w :
  Lru.find (obj_id settings) (openid_config_cache w) = None ->
  let url := openid_config_url settings in
  get_openid_config E settings w
  = match url_error E url with
    | Some msg => (Raise (InvalidURL msg), w)
    | None =>
        match http_get E (length (http_log w)) url with
        | TransportError msg => (Raise (RequestError msg), add_http url w)
        | Response st body =>
            if (200 <=? st)%Z && (st <=? 299)%Z then
              match body with
              | None => (Raise JSONDecodeError, add_http url w)
              | Some doc =>
                  (Ok doc,
                   set_openid_config_cache
                     (Lru.store (obj_id settings) doc (openid_config_cache w))
                     (add_http url w))
              end
            else (Raise (HTTPStatusError st), add_http url w)
        end
    end.
Proof.
  intros Hmiss url.
  unfold get_openid_config, lru_cache, Lru.lookup. simpl. rewrite Hmiss.
  unfold get_openid_config_body, mbind, M_bind, client_get, lift, raise. fold url.
  destruct (url_error E url) as [msg|]; [reflexivity |].
  destruct (http_get E (length (http_log w)) url) as [msg|st body]; [reflexivity |].
  unfold raise_for_status. simpl.
  destruct ((200 <=? st)%Z && (st <=? 299)%Z); [| reflexivity].
  unfold resp_json. simpl. by destruct body.
Qed.

(** C7, as the code has it.  On a first use, [get_openid_config] fails
    with the client's error when the GET does not complete
    ([RequestError]), when the status is outside 200..299
    ([HTTPStatusError]) and when the body is not JSON; otherwise it returns
    and memoizes the document whatever it contains.  A document without a
    usable [jwks_uri] is refused one step later, by [get_jwks], with
    [RuntimeError], when no JWKS URL is configured; no key set is requested
    then.  A discovery URL that does not parse is refused by the client
    with [InvalidURL] before any request. *)
Theorem discovery_document_outcomes settings w :
  Lru.find (obj_id settings) (openid_config_cache w) = None ->
  let url := openid_config_url settings in
  match url_error E url with
  | Some msg => get_openid_config E settings w = (Raise (InvalidURL msg), w)
  | None =>
  match http_get E (length (http_log w)) url with
  | TransportError msg =>
      get_openid_config E settings w = (Raise (RequestError msg), add_http url w)
  | Response st body =>
      if (200 <=? st)%Z && (st <=? 299)%Z then
        match body with
        | None =>
            get_openid_config E settings w = (Raise JSONDecodeError, add_http url w)
        | Some doc =>
            let w1 := set_openid_config_cache
                        (Lru.store (obj_id settings) doc (openid_config_cache w))
                        (add_http url w) in
            get_openid_config E settings w = (Ok doc, w1)
            /\ (forall d,
                  doc = JObj d ->
                  Py.truthy (Py.get d "jwks_uri") = false ->
                  jwks_uri settings = None ->
                  Lru.find (obj_id settings) (jwks_cache w) = None ->
                  get_jwks E settings w = (Raise MalformedProviderMetadata, w1))
        end
      else
        get_openid_config E settings w = (Raise (HTTPStatusError st), add_http url w)
  end
  end.
Proof.
  intros Hmiss url.
  pose proof (get_openid_config_first_use settings w Hmiss) as Hcfg.
  cbv zeta in Hcfg. fold url in Hcfg.
  destruct (url_error E url) as [msg|]; [exact Hcfg |].
  destruct (http_get E (length (http_log w)) url) as [msg|st body]; [exact Hcfg |].
  destruct ((200 <=? st)%Z && (st <=? 299)%Z); [| exact Hcfg].
  destruct body as [doc|]; [| exact Hcfg].
  split; [exact Hcfg |].
  intros d -> Hfalsy Hnone Hjmiss.
  unfold get_jwks, lru_cache, Lru.lookup. simpl. rewrite Hjmiss.
  unfold get_jwks_body. rewrite Hnone.
  change (negb (Py.truthy JNull)) with true. cbv iota.
  match goal with
  | |- context [mbind ?f ?c w] =>
      assert (Hinner : c w = (Raise MalformedProviderMetadata,
                set_openid_config_cache
                  (Lru.store (obj_id settings) (JObj d) (openid_config_cache w))
                  (add_http url w)))
  end.
  { rewrite (M_bind_Ok _ _ _ _ _ Hcfg).
    unfold mbind, M_bind, lift, config_get. by rewrite Hfalsy. }
  by rewrite (M_bind_Raise _ _ _ _ _ Hinner).
Qed.

End KeySet.

(** Token "nokid" has no key identifier; token "rotated" names a key the
    provider does not publish. *)
Lemma signing_key_resolution_witness :
  (validate_jwt Demo.env "nokid" Demo.settings initial_world).1
  = Raise MissingKeyId
  /\ (validate_jwt Demo.env "rotated" Demo.settings initial_world).1
     = Raise UnknownSigningKey
  /\ http_log (validate_jwt Demo.env "rotated" Demo.settings initial_world).2
     = [Demo.discovery_url; Demo.keys_url].
Proof.
  pose (w1 := (get_jwks Demo.env Demo.settings initial_world).2).
  assert (Hjwks : get_jwks Demo.env Demo.settings initial_world = (Ok Demo.jwks, w1))
    by (vm_compute; reflexivity).
  destruct (signing_key_resolution Demo.env "nokid" Demo.settings initial_world
              Demo.jwks w1 {[ "alg" := JStr "RS256" ]} Hjwks eq_refl)
    as (Hmissing & _ & _).
  destruct (signing_key_resolution Demo.env "rotated" Demo.settings initial_world
              Demo.jwks w1 {[ "alg" := JStr "RS256"; "kid" := JStr "k9" ]}
              Hjwks eq_refl)
    as (_ & Hunknown & _).
  destruct (Hmissing eq_refl) as [_ ->].
  destruct (Hunknown {[ "keys" := JList [JObj Demo.key1] ]} [Demo.key1]
              eq_refl eq_refl eq_refl eq_refl) as [_ ->].
  split; [reflexivity |]. split; [reflexivity |]. vm_compute. reflexivity.
Defined.

(** A token whose header does not parse. *)
Lemma unparsable_header_escapes_witness :
  validate_jwt Demo.env "not-a-jwt" Demo.settings initial_world
  = (Raise (JWTError "Error decoding token headers."),
     (get_jwks Demo.env Demo.settings initial_world).2).
Proof.
  apply (unparsable_header_escapes Demo.env "not-a-jwt" Demo.settings
           initial_world Demo.jwks).
  - vm_compute. reflexivity.
  - reflexivity.
Defined.

(** C7, as stated, fails: the provider answers the discovery URL with an
    empty object, and [get_openid_config] returns it. *)
Lemma discovery_document_without_jwks_uri_accepted :
  (get_openid_config Demo.env_bare Demo.settings initial_world).1 = Ok (JObj ∅)
  /\ (∅ : gmap string json) !! "jwks_uri" = None.
Proof. split; [vm_compute |]; reflexivity. Qed.

(** The same document is refused by [get_jwks]. *)
Lemma discovery_document_outcomes_witness :
  (get_jwks Demo.env_bare Demo.settings initial_world).1
  = Raise MalformedProviderMetadata
  /\ http_log (get_jwks Demo.env_bare Demo.settings initial_world).2
     = [Demo.discovery_url].
Proof.
  pose proof (discovery_document_outcomes Demo.env_bare Demo.settings
                initial_world eq_refl) as H.
  destruct H as [_ H].
  rewrite (H ∅ eq_refl eq_refl eq_refl eq_refl). split; reflexivity.
Defined.

(** ** Calls of [get_jwks] one after another, and overlapping *)

Section Calls.
Context (E : Env).

(** A call that runs its three phases without interruption is [get_jwks]. *)
Lemma call_step_get_jwks settings w :
  let '(c1, w1) := call_step E settings Called w in
  let '(c2, w2) := call_step E settings c1 w1 in
  let '(c3, w3) := call_step E settings c2 w2 in
  (c3, w3) = (Finished (get_jwks E settings w).1, (get_jwks E settings w).2).
Proof.
  unfold get_jwks, lru_cache. simpl.
  destruct (Lru.lookup _ _) as [[v c]|]; [reflexivity |]. simpl.
  by destruct (get_jwks_body E settings w) as [[v|e] w'].
Qed.

Lemma call_in_turn_cached settings n w v :
  Lru.find (obj_id settings) (jwks_cache w) = Some v ->
  (call_in_turn E settings n w).1 = replicate n (Ok v)
  /\ http_log (call_in_turn E settings n w).2 = http_log w.
Proof.
  revert w. induction n as [|n IH]; intros w Hfind; [done |].
  destruct (get_jwks_cached E settings w v Hfind) as (Hr & Hlog & Hfind').
  simpl. destruct (get_jwks E settings w) as [r w'] eqn:Hcall. simpl in *.
  destruct (IH w' Hfind') as [IHr IHlog].
  destruct (call_in_turn E settings n w') as [rs w'']. simpl in *.
  by rewrite Hr, IHr, IHlog, Hlog.
Qed.

(** C8, as the code has it.  [n + 1] first-use calls of [get_jwks] made one
    after another, the first of which returns: all return the same key set,
    and the requests sent are those of the first call, one GET of the key
    set after at most one GET of the discovery document. *)
Theorem get_jwks_calls_in_turn settings w v w1 n :
  Lru.find (obj_id settings) (jwks_cache w) = None ->
  get_jwks E settings w = (Ok v, w1) ->
  (call_in_turn E settings (S n) w).1 = replicate (S n) (Ok v)
  /\ http_log (call_in_turn E settings (S n) w).2 = http_log w1
  /\ exists u, http_log w1 = http_log w ++ [u]
               \/ http_log w1 = http_log w ++ [openid_config_url settings; u].
Proof.
  intros Hmiss Hcall.
  pose proof (get_jwks_requests E settings w v w1 Hcall) as Hreq.
  rewrite Hmiss in Hreq.
  pose proof (get_jwks_stores E settings w v w1 Hcall) as Hfind.
  destruct (call_in_turn_cached settings n w1 v Hfind) as [Hr Hlog].
  simpl. rewrite Hcall.
  destruct (call_in_turn E settings n w1) as [rs w'']. simpl in *.
  by rewrite Hr, Hlog.
Qed.

End Calls.

(** Five calls in turn: one GET of the key set. *)
Lemma get_jwks_calls_in_turn_witness :
  (call_in_turn Demo.env Demo.settings_explicit 5 initial_world).1
  = replicate 5 (Ok Demo.jwks)
  /\ http_log (call_in_turn Demo.env Demo.settings_explicit 5 initial_world).2
     = [Demo.keys_url].
Proof.
  destruct (get_jwks_calls_in_turn Demo.env Demo.settings_explicit initial_world
              Demo.jwks (get_jwks Demo.env Demo.settings_explicit initial_world).2
              4 eq_refl) as (Hr & Hlog & _).
  - vm_compute. reflexivity.
  - split; [exact Hr |]. rewrite Hlog. vm_compute. reflexivity.
Defined.

(** C8, as stated, fails: two first-use calls whose phases alternate both
    miss the table and both fetch; each gets the key set. *)
Lemma overlapping_calls_fetch_twice :
  let run := run_schedule Demo.env Demo.settings_explicit [0; 1; 0; 1; 0; 1]
               (replicate 2 Called) initial_world in
  run.1 = [Finished (Ok Demo.jwks); Finished (Ok Demo.jwks)]
  /\ http_log run.2 = [Demo.keys_url; Demo.keys_url].
Proof. split; vm_compute; reflexivity. Qed.

(** Hence the module is not single-flight. *)
Lemma not_single_flight : ~ single_flight Demo.env Demo.settings_explicit 2.
Proof.
  intros H.
  pose (run := run_schedule Demo.env Demo.settings_explicit [0; 1; 0; 1; 0; 1]
                 (replicate 2 Called) initial_world).
  specialize (H [0; 1; 0; 1; 0; 1] run.1 run.2).
  assert (Hlen : length (http_log run.2) = 2) by (vm_compute; reflexivity).
  rewrite H in Hlen; [discriminate | apply surjective_pairing |].
  vm_compute. reflexivity.
Qed.

(** No attempt of the call reads the clock again. *)
Lemma not_single_clock_sample :
  ~ single_clock_sample Demo.env "legacy" Demo.settings initial_world.
Proof.
  intros H.
  specialize (H {| dc_audience := "api://C";
                   dc_issuer := "https://sts.windows.net/T/";
                   dc_now := 1001 |}).
  assert (Hclock : (1001 = 999)%Z); [| discriminate].
  apply H. apply (list_elem_of_lookup_2 _ 1). vm_compute. reflexivity.
Qed.

(** * Further properties *)

(** ** Precedence in the projection *)

Section ProjectionOrder.
Context (E : Env).

(** X1. The email is the value of the first of [preferred_username],
    [upn], [email] that is truthy, whatever the later ones hold; when all
    three are falsy (absent, [None], empty) it is the first element of a
    non-empty [emails] list. *)
Theorem _extract_email_from_claims_order (claims : gmap string json) :
  let pu := Py.get claims "preferred_username" in
  let upn := Py.get claims "upn" in
  let email := Py.get claims "email" in
  (Py.truthy pu = true -> _extract_email_from_claims claims = Ok pu)
  /\ (Py.truthy pu = false -> Py.truthy upn = true ->
      _extract_email_from_claims claims = Ok upn)
  /\ (Py.truthy pu = false -> Py.truthy upn = false -> Py.truthy email = true ->
      _extract_email_from_claims claims = Ok email)
  /\ (Py.truthy pu = false -> Py.truthy upn = false -> Py.truthy email = false ->
      forall x rest, claims !! "emails" = Some (JList (x :: rest)) ->
      _extract_email_from_claims claims = Ok x).
Proof.
  intros pu upn email. unfold _extract_email_from_claims. fold pu upn email.
  repeat split.
  - by intros ->.
  - by intros -> ->.
  - by intros -> -> ->.
  - intros -> -> -> x rest Hemails.
    assert (Py.get claims "emails" = JList (x :: rest)) as ->
      by (unfold Py.get; by rewrite Hemails).
    reflexivity.
Qed.

(** X2. For a [groups] claim that is a list, the result has one string
    per element; a list of strings comes back unchanged. *)
Theorem _extract_groups_from_claims_strings (claims : gmap string json) :
  (forall l, claims !! "groups" = Some (JList l) ->
             length (_extract_groups_from_claims E claims) = length l)
  /\ (forall gs, claims !! "groups" = Some (JList (JStr <$> gs)) ->
                 _extract_groups_from_claims E claims = gs).
Proof.
  assert (Hl : forall l, claims !! "groups" = Some (JList l) ->
                         _extract_groups_from_claims E claims = py_str (repr E) <$> l).
  { intros l H. unfold _extract_groups_from_claims, Py.or_, Py.get. rewrite H.
    simpl. by destruct l. }
  split.
  - intros l H. by rewrite (Hl l H), length_fmap.
  - intros gs H. rewrite (Hl _ H), <- list_fmap_compose.
    clear. induction gs as [|g gs IH]; simpl; [done | by f_equal].
Qed.

(** X3. The id of the user record is [oid] when that is truthy, and
    otherwise whatever [sub] holds. *)
Theorem build_user_info_from_claims_id (claims : gmap string json) :
  exists u : UserInfo,
    build_user_info_from_claims E claims = Ok u
    /\ (Py.truthy (Py.get claims "oid") = true -> ui_id u = Py.get claims "oid")
    /\ (Py.truthy (Py.get claims "oid") = false -> ui_id u = Py.get claims "sub").
Proof.
  destruct (read_current_user_returns E claims) as (u & Hu & _).
  exists u. split; [done |].
  unfold build_user_info_from_claims in Hu.
  destruct (_extract_email_from_claims claims); [| discriminate].
  injection Hu as <-. simpl. unfold Py.or_. split; by intros ->.
Qed.
End ProjectionOrder.

(** ** The key that is found *)

Section KeyLookup.
Context (E : Env).

(** The entry returned by the loop is the first one that carries the
    identifier; the entries before it are objects that do not. *)
Lemma find_signing_key_Ok kid keys key :
  find_signing_key kid keys = Ok key ->
  exists i,
    keys !! i = Some (JObj key)
    /\ Py.eq (Py.get key "kid") kid = true
    /\ forall j, j < i ->
         exists d, keys !! j = Some (JObj d) /\ Py.eq (Py.get d "kid") kid = false.
Proof.
  induction keys as [|k keys IH]; simpl; [discriminate |].
  destruct k as [| | | | | |d]; try discriminate.
  destruct (Py.eq (Py.get d "kid") kid) eqn:Heq.
  - intros [= <-]. exists 0. split; [done |]. split; [done |]. intros j Hj. lia.
  - intros H. destruct (IH H) as (i & Hi & Hm & Hlt).
    exists (S i). split; [done |]. split; [done |].
    intros [|j] Hj; [by exists d | apply Hlt; lia].
Qed.

Lemma find_signing_key_strings kid (l : list json) key :
  Forall (fun x => exists s, x = JStr s) l -> find_signing_key kid l <> Ok key.
Proof.
  intros Hl. destruct Hl as [|x l [s ->] _]; simpl; discriminate.
Qed.

(** X4. When [_get_signing_key] returns a key, the header parsed and
    carries a truthy [kid], the key set is an object whose [keys] is a
    list, and the key returned is the first entry of that list whose [kid]
    equals the header's; every entry before it is an object with another
    [kid]. *)
Theorem _get_signing_key_first_match token jwks key :
  _get_signing_key E token jwks = Ok key ->
  exists headers d keys i,
    jwt_get_unverified_header E token = inr headers
    /\ Py.truthy (Py.get headers "kid") = true
    /\ jwks = JObj d
    /\ d !! "keys" = Some (JList keys)
    /\ keys !! i = Some (JObj key)
    /\ Py.eq (Py.get key "kid") (Py.get headers "kid") = true
    /\ forall j, j < i ->
         exists dj, keys !! j = Some (JObj dj)
                    /\ Py.eq (Py.get dj "kid") (Py.get headers "kid") = false.
Proof.
  unfold _get_signing_key.
  destruct (jwt_get_unverified_header E token) as [msg|headers]; [discriminate |].
  simpl. destruct (Py.truthy (Py.get headers "kid")) eqn:Hkid; [| discriminate].
  simpl. destruct jwks as [| | | | | |d]; try discriminate. simpl.
  unfold Py.get_default. destruct (d !! "keys") as [ks|] eqn:Hks; simpl.
  - destruct ks as [| | | |s|keys|m]; simpl; try discriminate.
    + intros H. exfalso. revert H. apply find_signing_key_strings.
      apply Forall_fmap, Forall_forall. intros c _. by eexists.
    + intros H. destruct (find_signing_key_Ok _ _ _ H) as (i & Hi & Hm & Hlt).
      by exists headers, d, keys, i.
    + intros H. exfalso. revert H. apply find_signing_key_strings.
      apply Forall_fmap, Forall_forall. intros c _. by eexists.
  - discriminate.
Qed.

Lemma _get_signing_key_falsy_kid token jwks headers :
  jwt_get_unverified_header E token = inr headers ->
  Py.truthy (Py.get headers "kid") = false ->
  _get_signing_key E token jwks = Raise MissingKeyId.
Proof.
  intros Hh Hk. unfold _get_signing_key. rewrite Hh. simpl. by rewrite Hk.
Qed.

End KeyLookup.

(** ** The memo tables *)

Lemma Lru_find_None_not_in k c : Lru.find k c = None -> k ∉ c.*1.
Proof.
  induction c as [|[k' v] c IH]; simpl; intros H.
  - apply not_elem_of_nil.
  - destruct (Nat.eqb_spec k k') as [->|Hne]; [discriminate |].
    apply not_elem_of_cons. split; [done | by apply IH].
Qed.

Lemma Lru_remove_keys k c x : x ∈ (Lru.remove k c).*1 -> x ∈ c.*1.
Proof.
  induction c as [|[k' v] c IH]; simpl; [done |].
  destruct (Nat.eqb k k'); simpl.
  - intros H. by right.
  - intros [->|H]%elem_of_cons; [by left | right; by apply IH].
Qed.

Lemma Lru_remove_NoDup k c :
  NoDup c.*1 -> NoDup (Lru.remove k c).*1 /\ k ∉ (Lru.remove k c).*1.
Proof.
  induction c as [|[k' v] c IH]; simpl; intros Hnd.
  - split; [constructor | apply not_elem_of_nil].
  - apply NoDup_cons in Hnd as [Hk' Hnd].
    destruct (Nat.eqb_spec k k') as [->|Hne]; [done |].
    destruct (IH Hnd) as [IH1 IH2]. simpl. split.
    + apply NoDup_cons. split; [| done].
      intros Hin. apply Hk'. by apply (Lru_remove_keys k).
    + apply not_elem_of_cons. by split.
Qed.

Lemma Lru_remove_length k c v :
  Lru.find k c = Some v -> S (length (Lru.remove k c)) = length c.
Proof.
  induction c as [|[k' v'] c IH]; simpl; [discriminate |].
  destruct (Nat.eqb k k'); [done |]. intros H. simpl. by rewrite IH.
Qed.

Lemma Lru_lookup_wf k c v c' :
  Lru_wf c -> Lru.lookup k c = Some (v, c') -> Lru_wf c'.
Proof.
  intros [Hnd Hlen]. unfold Lru.lookup.
  destruct (Lru.find k c) as [v0|] eqn:Hf; [| discriminate].
  intros [= <- <-]. destruct (Lru_remove_NoDup k c Hnd) as [H1 H2].
  split.
  - simpl. apply NoDup_cons. by split.
  - simpl. by rewrite (Lru_remove_length k c v0 Hf).
Qed.

Lemma Lru_store_wf k v c : Lru_wf c -> Lru_wf (Lru.store k v c).
Proof.
  intros [Hnd Hlen]. unfold Lru.store.
  destruct (Lru.find k c) as [v0|] eqn:Hf; [done |].
  pose proof (Lru_find_None_not_in k c Hf) as Hk.
  destruct (Nat.ltb_spec (length c) Lru.maxsize) as [Hlt|Hge]; split; simpl.
  - apply NoDup_cons. by split.
  - lia.
  - apply NoDup_cons. split.
    + intros Hin. apply Hk. rewrite fmap_take in Hin.
      eapply elem_of_sublist; [exact Hin | apply sublist_take].
    + rewrite fmap_take. eapply sublist_NoDup; [exact Hnd | apply sublist_take].
  - rewrite length_take. unfold Lru.maxsize in *. lia.
Qed.

Section Memo.
Context (E : Env).

Lemma get_openid_config_wf settings w :
  Lru_wf (openid_config_cache w) ->
  Lru_wf (openid_config_cache (get_openid_config E settings w).2).
Proof.
  intros Hwf. unfold get_openid_config, lru_cache. simpl.
  destruct (Lru.lookup _ _) as [[v c]|] eqn:Hl.
  - simpl. by apply (Lru_lookup_wf _ _ _ _ Hwf Hl).
  - assert (Hk : keeps openid_config_cache (get_openid_config_body E settings)).
    { unfold get_openid_config_body. repeat keeps_step. }
    specialize (Hk w).
    destruct (get_openid_config_body E settings w) as [[v|e] w']; simpl in *.
    + apply Lru_store_wf. by rewrite Hk.
    + by rewrite Hk.
Qed.

(** The three steps [client.get(u)], [raise_for_status()], [json()] for a
    URL that parses: whatever the outcome, one request for [u] has gone to
    the transport and nothing else has changed. *)
Lemma fetch_world (u : string) (w : World) :
  url_error E u = None ->
  ((resp ← client_get E (JStr u);
    _ ← lift (raise_for_status resp);
    lift (resp_json resp)) w).2 = add_http u w.
Proof.
  intros Hu. unfold mbind, M_bind, client_get, lift. rewrite Hu.
  destruct (http_get E _ u) as [msg|st body]; [done |].
  destruct (raise_for_status _); [| done]. by destruct (resp_json _).
Qed.

(** The same for a URL that does not parse: [InvalidURL], and nothing has
    changed. *)
Lemma fetch_invalid (u msg : string) (w : World) :
  url_error E u = Some msg ->
  (resp ← client_get E (JStr u);
   _ ← lift (raise_for_status resp);
   lift (resp_json resp)) w = (Raise (InvalidURL msg), w).
Proof. intros Hu. unfold mbind, M_bind, client_get, raise. by rewrite Hu. Qed.

Lemma get_jwks_body_wf settings w :
  Lru_wf (openid_config_cache w) ->
  Lru_wf (openid_config_cache (get_jwks_body E settings w).2).
Proof.
  intros Hwf. unfold get_jwks_body.
  assert (Htail : forall (u : json) w0,
             Lru_wf (openid_config_cache w0) ->
             Lru_wf (openid_config_cache
                       ((resp ← client_get E u;
                         _ ← lift (raise_for_status resp);
                         lift (resp_json resp)) w0).2)).
  { intros u w0 H0.
    assert (Hk : keeps openid_config_cache
                   (resp ← client_get E u;
                    _ ← lift (raise_for_status resp);
                    lift (resp_json resp))) by repeat keeps_step.
    by rewrite Hk. }
  destruct (negb (Py.truthy _)).
  - unfold mbind at 1, M_bind at 1. unfold mbind at 1, M_bind at 1.
    pose proof (get_openid_config_wf settings w Hwf) as Hcfg.
    destruct (get_openid_config E settings w) as [[config|e] w2]; [| done].
    simpl in Hcfg. unfold mbind at 1, M_bind at 1, lift at 1.
    destruct (config_get config "jwks_uri") as [u|e]; [| done].
    destruct (negb (Py.truthy u)); [done |].
    unfold mret at 1, M_ret at 1. by apply Htail.
  - unfold mbind at 1, M_bind at 1, mret at 1, M_ret at 1. by apply Htail.
Qed.

(** X10. The two memo tables stay well formed across [get_jwks]: no key
    twice, never more than 128 entries. *)
Theorem get_jwks_tables_wf settings w :
  Lru_wf (openid_config_cache w) -> Lru_wf (jwks_cache w) ->
  Lru_wf (openid_config_cache (get_jwks E settings w).2)
  /\ Lru_wf (jwks_cache (get_jwks E settings w).2).
Proof.
  intros Ho Hj. unfold get_jwks, lru_cache. simpl.
  destruct (Lru.lookup _ _) as [[v c]|] eqn:Hl; simpl.
  - split; [done |]. by apply (Lru_lookup_wf _ _ _ _ Hj Hl).
  - pose proof (get_jwks_body_wf settings w Ho) as Ho'.
    pose proof (keeps_jwks_cache_get_jwks_body E settings w) as Hk.
    destruct (get_jwks_body E settings w) as [[v|e] w']; simpl in *.
    + split; [done |]. apply Lru_store_wf. by rewrite Hk.
    + split; [done |]. by rewrite Hk.
Qed.

(** X7. A call of [get_jwks] that raises was a miss and leaves the key-set
    table as it was: the failure is not remembered and the next call tries
    again. *)
Theorem get_jwks_failure_not_memoized settings w e w1 :
  get_jwks E settings w = (Raise e, w1) ->
  Lru.find (obj_id settings) (jwks_cache w) = None
  /\ jwks_cache w1 = jwks_cache w.
Proof.
  unfold get_jwks, lru_cache. simpl.
  destruct (Lru.lookup _ _) as [[v c]|] eqn:Hl; [discriminate |].
  pose proof (keeps_jwks_cache_get_jwks_body E settings w) as Hk.
  destruct (get_jwks_body E settings w) as [[v|e'] w']; [discriminate |].
  intros [= <- <-]. split; [by apply Lru_lookup_None | done].
Qed.

Lemma get_jwks_body_explicit settings w u :
  jwks_uri settings = Some u -> u <> "" ->
  get_jwks_body E settings w
  = (resp ← client_get E (JStr u);
     _ ← lift (raise_for_status resp);
     lift (resp_json resp)) w.
Proof.
  intros Hu Hne. unfold get_jwks_body. rewrite Hu.
  assert (Ht : negb (Py.truthy (JStr u)) = false).
  { simpl. by destruct (String.eqb_spec u ""). }
  by rewrite Ht.
Qed.

(** X8. With a non-empty JWKS URL in the settings, a first use of
    [get_jwks] hands exactly one request to the transport, for that URL,
    whatever comes back; when the URL does not parse the call raises
    [InvalidURL] and nothing is sent or changed.  Either way the discovery
    document is neither requested nor memoized. *)
Theorem get_jwks_explicit_uri settings w u :
  jwks_uri settings = Some u -> u <> "" ->
  Lru.find (obj_id settings) (jwks_cache w) = None ->
  match url_error E u with
  | None => http_log (get_jwks E settings w).2 = http_log w ++ [u]
  | Some msg => get_jwks E settings w = (Raise (InvalidURL msg), w)
  end
  /\ openid_config_cache (get_jwks E settings w).2 = openid_config_cache w.
Proof.
  intros Hu Hne Hmiss. unfold get_jwks, lru_cache, Lru.lookup. simpl.
  rewrite Hmiss, (get_jwks_body_explicit settings w u Hu Hne).
  destruct (url_error E u) as [msg|] eqn:Hurl.
  - by rewrite (fetch_invalid u msg w Hurl).
  - pose proof (fetch_world u w Hurl) as Hw.
    match type of Hw with
    | (?c w).2 = _ => destruct (c w) as [[v|e] w']
    end; simpl in *; by subst w'.
Qed.

Lemma get_jwks_body_discovered settings w d u :
  jwks_uri settings = None ->
  Lru.find (obj_id settings) (openid_config_cache w) = Some (JObj d) ->
  d !! "jwks_uri" = Some (JStr u) -> u <> "" ->
  get_jwks_body E settings w
  = (resp ← client_get E (JStr u);
     _ ← lift (raise_for_status resp);
     lift (resp_json resp))
      (set_openid_config_cache
         ((obj_id settings, JObj d)
          :: Lru.remove (obj_id settings) (openid_config_cache w)) w).
Proof.
  intros Hnone Hcfg Hd Hne. unfold get_jwks_body. rewrite Hnone.
  change (negb (Py.truthy JNull)) with true. cbv iota.
  assert (Hc : get_openid_config E settings w
               = (Ok (JObj d),
                  set_openid_config_cache
                    ((obj_id settings, JObj d)
                     :: Lru.remove (obj_id settings) (openid_config_cache w)) w)).
  { unfold get_openid_config, lru_cache, Lru.lookup. simpl. by rewrite Hcfg. }
  assert (Ht : negb (Py.truthy (JStr u)) = false).
  { simpl. by destruct (String.eqb_spec u ""). }
  match goal with
  | |- context [mbind ?f ?c w] =>
      assert (Hinner : c w = (Ok (JStr u),
                  set_openid_config_cache
                    ((obj_id settings, JObj d)
                     :: Lru.remove (obj_id settings) (openid_config_cache w)) w))
  end.
  { rewrite (M_bind_Ok _ _ _ _ _ Hc).
    unfold mbind, M_bind, lift, config_get, Py.get. rewrite Hd.
    change (default JNull (Some (JStr u))) with (JStr u). by rewrite Ht. }
  by rewrite (M_bind_Ok _ _ _ _ _ Hinner).
Qed.

(** X9. When the discovery document is memoized and names a JWKS URL, a
    first use of [get_jwks] without a configured JWKS URL hands exactly one
    request to the transport, for the URL the document names: the document
    is not fetched again.  When that URL does not parse the call raises
    [InvalidURL] and no request is made at all. *)
Theorem get_jwks_reuses_discovery settings w d u :
  jwks_uri settings = None ->
  Lru.find (obj_id settings) (jwks_cache w) = None ->
  Lru.find (obj_id settings) (openid_config_cache w) = Some (JObj d) ->
  d !! "jwks_uri" = Some (JStr u) -> u <> "" ->
  match url_error E u with
  | None => http_log (get_jwks E settings w).2 = http_log w ++ [u]
  | Some msg =>
      (get_jwks E settings w).1 = Raise (InvalidURL msg)
      /\ http_log (get_jwks E settings w).2 = http_log w
  end.
Proof.
  intros Hnone Hmiss Hcfg Hd Hne. unfold get_jwks, lru_cache, Lru.lookup. simpl.
  rewrite Hmiss, (get_jwks_body_discovered settings w d u Hnone Hcfg Hd Hne).
  destruct (url_error E u) as [msg|] eqn:Hurl.
  - by rewrite (fetch_invalid u msg _ Hurl).
  - match goal with
    | |- context [(?c ?w0)] =>
        match c with
        | mbind _ _ =>
            pose proof (fetch_world u w0 Hurl) as Hw;
            destruct (c w0) as [[v|e] w']
        end
    end; simpl in *; by subst w'.
Qed.

End Memo.

(** ** What a request can fail with *)

Lemma M_bind_snd {A B : Type} (c : M A) (f : A -> M B) (w : World) :
  ((c ≫= f) w).2
  = match c w with
    | (Ok a, w1) => (f a w1).2
    | (Raise _, w1) => w1
    end.
Proof. unfold mbind, M_bind. by destruct (c w) as [[a|e] w1]. Qed.

Section Raises.
Context (P : exn -> Prop).

Lemma raises_only_bind {A B : Type} (c : M A) (f : A -> M B) :
  raises_only P c -> (forall a, raises_only P (f a)) -> raises_only P (c ≫= f).
Proof.
  intros Hc Hf w e w'. unfold mbind, M_bind.
  destruct (c w) as [[a|e0] w0] eqn:Hcw.
  - apply Hf.
  - intros [= <- <-]. by apply (Hc w e0 w0).
Qed.

Lemma raises_only_ret {A : Type} (a : A) : raises_only P (mret a).
Proof. intros w e w'. discriminate. Qed.

Lemma raises_only_logger lv msg : raises_only P (logger lv msg).
Proof. intros w e w'. discriminate. Qed.

Lemma raises_only_raise {A : Type} (e : exn) : P e -> raises_only P (@raise A e).
Proof. intros He w e' w'. by intros [= <- <-]. Qed.

Lemma raises_only_lift {A : Type} (r : result A) :
  (forall e, r = Raise e -> P e) -> raises_only P (lift r).
Proof. intros Hr w e w'. unfold lift. intros [= -> <-]. by apply Hr. Qed.

Lemma raises_only_lru_cache m f settings :
  raises_only P (f settings) -> raises_only P (lru_cache m f settings).
Proof.
  intros Hf w e w'. unfold lru_cache.
  destruct (Lru.lookup _ _) as [[v c]|]; [discriminate |].
  destruct (f settings w) as [[v|e0] w0] eqn:Hfw; [discriminate |].
  intros [= <- <-]. by apply (Hf w e0 w0).
Qed.

End Raises.

Section Failures.
Context (E : Env).

(** python-jose knows nothing of FastAPI: no call of [jwt.decode] raises an
    [HTTPException]. *)
Hypothesis jwt_decode_no_HTTPException :
  forall now token key aud iss st detail,
    jwt_decode E now token key aud iss <> Raise (HTTPException st detail).

Lemma raises_only_fetch (u : json) :
  raises_only no_other_HTTPException
    (resp ← client_get E u;
     _ ← lift (raise_for_status resp);
     lift (resp_json resp)).
Proof.
  apply raises_only_bind.
  - intros w e w'. unfold client_get, raise.
    destruct u; try (by intros [= <- <-]).
    destruct (url_error E _); [by intros [= <- <-] |].
    destruct (http_get E _ _); [by intros [= <- <-] | discriminate].
  - intros resp. apply raises_only_bind.
    + apply raises_only_lift. intros e. unfold raise_for_status.
      destruct (_ && _); [discriminate | by intros [= <-]].
    + intros _. apply raises_only_lift. intros e. unfold resp_json.
      destruct resp.2; [discriminate | by intros [= <-]].
Qed.

Lemma raises_only_get_openid_config settings :
  raises_only no_other_HTTPException (get_openid_config E settings).
Proof. apply raises_only_lru_cache, raises_only_fetch. Qed.

Lemma raises_only_get_jwks settings :
  raises_only no_other_HTTPException (get_jwks E settings).
Proof.
  apply raises_only_lru_cache. unfold get_jwks_body.
  apply raises_only_bind; [| intros u; apply raises_only_fetch].
  destruct (negb _); [| apply raises_only_ret].
  apply raises_only_bind; [apply raises_only_get_openid_config |].
  intros config. apply raises_only_bind.
  - apply raises_only_lift. intros e. unfold config_get.
    destruct config; try discriminate; by intros [= <-].
  - intros u. destruct (negb _); [by apply raises_only_raise | apply raises_only_ret].
Qed.

Lemma find_signing_key_failure kid keys e :
  find_signing_key kid keys = Raise e -> no_other_HTTPException e.
Proof.
  induction keys as [|k keys IH]; simpl.
  - intros [= <-]. right. right. right. by left.
  - destruct k; try (by intros [= <-]).
    destruct (Py.eq _ _); [discriminate | exact IH].
Qed.

Lemma _get_signing_key_failure token jwks e :
  _get_signing_key E token jwks = Raise e -> no_other_HTTPException e.
Proof.
  unfold _get_signing_key.
  destruct (jwt_get_unverified_header E token) as [msg|headers]; simpl;
    [by intros [= <-] |].
  destruct (negb _); [intros [= <-]; right; right; by left |].
  destruct jwks; simpl; try (by intros [= <-]).
  destruct (py_iter _) as [keys|e0] eqn:Hiter; simpl.
  - apply find_signing_key_failure.
  - intros [= <-]. revert Hiter. unfold py_iter.
    destruct (Py.get_default _ _ _); try discriminate; by intros [= <-].
Qed.

Lemma raises_only_validate_jwt token settings :
  raises_only no_other_HTTPException (validate_jwt E token settings).
Proof.
  intros w e w'.
  destruct (get_jwks E settings w) as [[jwks|e0] w1] eqn:Hjwks.
  - destruct (_get_signing_key E token jwks) as [key|e1] eqn:Hkey.
    + destruct (validate_jwt_loop E token settings w jwks w1 key Hjwks Hkey)
        as (w2 & _ & ->).
      destruct (try_pairs_spec E token key (candidate_pairs settings) None w2)
        as (w3 & _ & ->).
      destruct (first_exit _) as [[i [claims|e2]]|] eqn:Hfs.
      * discriminate.
      * intros [= <- <-].
        apply first_exit_Some in Hfs as (Hi & _ & _).
        apply list_lookup_imap_Some in Hi as ([aud iss] & _ & Ho).
        unfold attempt_outcome in Ho. destruct e2; try done.
        by destruct (jwt_decode_no_HTTPException _ _ _ _ _ _ _ (eq_sym Ho)).
      * intros [= <- <-]. right. right. right. right. by eexists.
    + rewrite (validate_jwt_key_failure E token settings w jwks w1 e1 Hjwks Hkey).
      intros [= <- <-]. by apply (_get_signing_key_failure token jwks).
  - unfold validate_jwt. rewrite (M_bind_Raise _ _ _ _ _ Hjwks).
    intros [= <- <-]. by apply (raises_only_get_jwks settings w e0 w1).
Qed.

Lemma raises_only_auth_me request settings :
  raises_only no_other_HTTPException (auth_me E request settings).
Proof.
  unfold auth_me. apply raises_only_bind.
  - intros w0 e0 w0'.
    destruct (headers_get request "Authorization") as [v|] eqn:Hget.
    + destruct (Py.startswith (Py.lower v) "bearer ") eqn:Hb.
      * rewrite (get_current_user_claims_bearer E request settings w0 v Hget Hb).
        destruct (String.eqb _ ""); [intros [= <- <-]; right; by left |].
        apply raises_only_validate_jwt.
      * rewrite (get_current_user_claims_refused E request settings w0);
          [intros [= <- <-]; by left | by rewrite Hget].
    + rewrite (get_current_user_claims_refused E request settings w0);
        [intros [= <- <-]; by left | by rewrite Hget].
  - intros claims. apply raises_only_lift. intros e0.
    destruct (read_current_user_returns E claims) as (u & _ & ->). discriminate.
Qed.

(** The constructor has one failure. *)
Lemma get_settings_failure environ p e p1 :
  get_settings environ p = (Raise e, p1) -> e = MissingConfiguration.
Proof.
  unfold get_settings. destruct (settings_cache p); [discriminate |].
  unfold AzureADSettings_new.
  destruct (environ !! "AZURE_AD_TENANT_ID") as [t|];
    destruct (environ !! "AZURE_AD_CLIENT_ID") as [c|];
    try (by intros [= <- <-]).
  destruct (_ || _); [by intros [= <- <-] | discriminate].
Qed.

(** X13. Whatever the environment, the state of the process and the
    request, an [HTTPException] that ends [GET /auth/me] has status 401 and
    is one of the five failures of the module: the two refusals of the
    header, the token without [kid], the key that is not found, the token
    that no candidate verifies.  Every other way the request fails is an
    exception of another class: the [RuntimeError] of the settings, or what
    the client, the provider's documents or the library raise. *)
Theorem GET_auth_me_HTTPException environ request p st detail p' :
  GET_auth_me E environ request p = (Raise (HTTPException st detail), p') ->
  st = 401%Z /\ deliberate_failure (HTTPException st detail).
Proof.
  unfold GET_auth_me. intros H.
  assert (Hd : deliberate_failure (HTTPException st detail)).
  { destruct (get_settings environ p) as [[settings|e] p1] eqn:Hs.
    - destruct (auth_me E request settings (world p1)) as [r w1] eqn:Hr.
      simpl in H. injection H as -> _.
      apply (raises_only_auth_me request settings (world p1) _ w1 Hr).
    - injection H as -> _.
      by pose proof (get_settings_failure environ p _ p1 Hs). }
  split; [| exact Hd].
  destruct Hd as [Hd|[Hd|[Hd|[Hd|[msg Hd]]]]]; by injection Hd as -> _.
Qed.

End Failures.

(** ** [validate_jwt] after the key set *)

Section ValidateFrame.
Context (E : Env) {X : Type} (field : World -> X).
Hypothesis field_add_decode : forall d w, field (add_decode d w) = field w.
Hypothesis field_add_log : forall r w, field (add_log r w) = field w.

Lemma keeps_decode token key aud iss : keeps field (decode E token key aud iss).
Proof. intros w. apply field_add_decode. Qed.

Lemma keeps_for_issuers token key aud issuers last_error :
  keeps field (for_issuers E token key aud issuers last_error).
Proof.
  revert last_error. induction issuers as [|iss rest IH]; intros last_error.
  - apply keeps_ret.
  - simpl. apply keeps_try_except_JWTError; [| intros e; apply IH].
    apply keeps_bind; [apply keeps_decode |]. intros claims.
    apply keeps_bind; [by apply keeps_logger | intros _; apply keeps_ret].
Qed.

Lemma keeps_for_audiences token key audiences issuers last_error :
  keeps field (for_audiences E token key audiences issuers last_error).
Proof.
  revert last_error. induction audiences as [|aud rest IH]; intros last_error.
  - apply keeps_ret.
  - simpl. apply keeps_bind; [apply keeps_for_issuers |].
    intros [claims|le]; [apply keeps_ret | apply IH].
Qed.

(** Everything [validate_jwt] does after [get_jwks] leaves [field] alone. *)
Lemma validate_jwt_after_get_jwks token settings w :
  field (validate_jwt E token settings w).2 = field (get_jwks E settings w).2.
Proof.
  unfold validate_jwt. rewrite M_bind_snd.
  destruct (get_jwks E settings w) as [[jwks|e] w1]; [| done]. cbv beta iota.
  match goal with
  | |- field (?c w1).2 = _ => assert (Hk : keeps field c); [| apply Hk]
  end.
  apply keeps_bind; [apply keeps_lift |]. intros key.
  apply keeps_bind; [by apply keeps_logger |]. intros _.
  apply keeps_bind; [by apply keeps_logger |]. intros _.
  apply keeps_bind.
  { unfold log_unverified_claims.
    destruct (jwt_get_unverified_claims E token);
      repeat first [ by apply keeps_logger | apply keeps_bind; [| intros ?] ]. }
  intros _. apply keeps_bind; [apply keeps_for_audiences |].
  intros [claims|le]; [apply keeps_ret |].
  apply keeps_bind; [by apply keeps_logger | intros _; apply keeps_raise].
Qed.

End ValidateFrame.

Section ValidateMore.
Context (E : Env).

(** X12. [validate_jwt] sends no request and touches no memo table beyond
    what its one call of [get_jwks] does; with the key set memoized it sends
    no request at all. *)
Theorem validate_jwt_requests token settings w :
  let w1 := (get_jwks E settings w).2 in
  let w' := (validate_jwt E token settings w).2 in
  http_log w' = http_log w1
  /\ jwks_cache w' = jwks_cache w1
  /\ openid_config_cache w' = openid_config_cache w1
  /\ match Lru.find (obj_id settings) (jwks_cache w) with
     | Some _ => http_log w' = http_log w
     | None => True
     end.
Proof.
  intros w1 w'. subst w1 w'.
  split; [by apply validate_jwt_after_get_jwks |].
  split; [by apply validate_jwt_after_get_jwks |].
  split; [by apply validate_jwt_after_get_jwks |].
  destruct (Lru.find _ _) as [v|] eqn:Hfind; [| done].
  rewrite (validate_jwt_after_get_jwks E http_log); [| done | done].
  by destruct (get_jwks_cached E settings w v Hfind) as (_ & -> & _).
Qed.

(** X11. Claims returned by [validate_jwt] were returned by [jwt.decode]
    for the token, for the key [_get_signing_key] resolved in the key set
    and for one of the four candidate (audience, issuer) pairs. *)
Theorem validate_jwt_sound token settings w claims w' :
  validate_jwt E token settings w = (Ok claims, w') ->
  exists jwks key aud iss now,
    (get_jwks E settings w).1 = Ok jwks
    /\ _get_signing_key E token jwks = Ok key
    /\ (aud, iss) ∈ candidate_pairs settings
    /\ jwt_decode E now token key aud iss = Ok claims.
Proof.
  intros Hrun.
  destruct (get_jwks E settings w) as [[jwks|e] w1] eqn:Hjwks.
  - destruct (_get_signing_key E token jwks) as [key|e] eqn:Hkey.
    + pose proof (validate_jwt_outcome E token settings w jwks w1 key Hjwks Hkey) as H.
      cbv zeta in H. rewrite Hrun in H. cbn [fst snd] in H.
      destruct (first_exit _) as [[i c]|] eqn:Hfs.
      * destruct H as [<- _].
        apply first_exit_Some in Hfs as (Hi & _ & _).
        apply list_lookup_imap_Some in Hi as ([aud iss] & Hp & Ho).
        exists jwks, key, aud, iss, (clock E (length (decode_log w1) + i)).
        split; [done |]. split; [done |].
        split; [by apply (list_elem_of_lookup_2 _ i) | done].
      * by destruct H.
    + rewrite (validate_jwt_key_failure E token settings w jwks w1 e Hjwks Hkey) in Hrun.
      discriminate.
  - unfold validate_jwt in Hrun. rewrite (M_bind_Raise _ _ _ _ _ Hjwks) in Hrun.
    discriminate.
Qed.

(** X5. A header whose [kid] is present but falsy (an empty string, [0],
    [null], [false]) is treated like a header without [kid]: the call fails
    with the 401 "Token sin 'kid' en el encabezado" whatever the key set
    holds, and no verification is attempted. *)
Theorem validate_jwt_falsy_kid token settings w jwks w1 headers :
  get_jwks E settings w = (Ok jwks, w1) ->
  jwt_get_unverified_header E token = inr headers ->
  Py.truthy (Py.get headers "kid") = false ->
  validate_jwt E token settings w = (Raise MissingKeyId, w1).
Proof.
  intros Hjwks Hh Hk. apply (validate_jwt_key_failure E token settings w jwks); [done |].
  by apply (_get_signing_key_falsy_kid E token jwks headers).
Qed.

(** X6. A memoized key set that is not a JSON object makes every token
    with a key identifier fail with [AttributeError]; nothing is fetched
    again and the value stays in the table. *)
Theorem validate_jwt_key_set_not_object token settings w jwks headers :
  Lru.find (obj_id settings) (jwks_cache w) = Some jwks ->
  (forall d, jwks <> JObj d) ->
  jwt_get_unverified_header E token = inr headers ->
  Py.truthy (Py.get headers "kid") = true ->
  (validate_jwt E token settings w).1 = Raise AttributeError
  /\ http_log (validate_jwt E token settings w).2 = http_log w
  /\ Lru.find (obj_id settings) (jwks_cache (validate_jwt E token settings w).2)
     = Some jwks.
Proof.
  intros Hfind Hshape Hh Hk.
  destruct (get_jwks_cached E settings w jwks Hfind) as (Hr & Hlog & Hfind').
  assert (Hkey : _get_signing_key E token jwks = Raise AttributeError).
  { unfold _get_signing_key. rewrite Hh. simpl. rewrite Hk. simpl.
    destruct jwks; try done. by destruct (Hshape m). }
  destruct (get_jwks E settings w) as [r w1] eqn:Hjwks. simpl in *. subst r.
  rewrite (validate_jwt_key_failure E token settings w jwks w1 _ Hjwks Hkey).
  by simpl.
Qed.

End ValidateMore.

(** ** The settings of the process *)

Lemma AzureADSettings_new_init (environ : gmap string string) (oid : nat) :
  (forall settings,
     AzureADSettings_new environ oid = Ok settings
     <-> exists a, AzureADSettings_init (ENV_VARIABLES ∅ environ) = Ok a
                   /\ settings_instance oid a = Some settings)
  /\ (forall e,
        AzureADSettings_new environ oid = Raise e
        <-> AzureADSettings_init (ENV_VARIABLES ∅ environ) = Raise e).
Proof.
  assert (Hmiss : forall e0 : exn,
            (forall s, @Raise AzureADSettings e0 = Ok s
               <-> exists a, @Raise AzureADSettings_attrs e0 = Ok a
                             /\ settings_instance oid a = Some s)
            /\ (forall e, @Raise AzureADSettings e0 = Raise e
                          <-> @Raise AzureADSettings_attrs e0 = Raise e)).
  { intros e0. split.
    - intros s. split; [discriminate |]. intros (a & Ha & _). discriminate Ha.
    - intros e. split; by intros [= ->]. }
  unfold AzureADSettings_new, AzureADSettings_init, env_get, env_get_default,
    ENV_VARIABLES.
  rewrite (right_id_L ∅ (∪)). rewrite !lookup_fmap.
  destruct (environ !! "AZURE_AD_TENANT_ID") as [t|]; simpl; [| apply Hmiss].
  destruct (environ !! "AZURE_AD_CLIENT_ID") as [c|]; simpl; [| apply Hmiss].
  destruct (_ || _); [apply Hmiss |].
  split; [| intros e; split; discriminate].
  intros s. unfold settings_instance.
  destruct (environ !! "AZURE_AD_ISSUER"),
    (environ !! "AZURE_AD_OPENID_CONFIG_URL"),
    (environ !! "AZURE_AD_AUDIENCE"), (environ !! "AZURE_AD_JWKS_URI"); simpl.
  all: split; [intros [= <-]; eexists; split; reflexivity
              | intros (a & Ha & Hs); injection Ha as <-; simpl in Hs; by injection Hs as <-].
Qed.

Section Requests.
Context (E : Env).

(** X20. In a process whose environment does not give both identifiers a
    non-empty value, every request [GET /auth/me] ends with the
    [RuntimeError] of the settings constructor before the header is read:
    nothing is logged, fetched or decoded.  The failure is not remembered:
    the memo of [get_settings] stays empty and the next request builds the
    settings again. *)
Theorem GET_auth_me_unconfigured environ request p :
  settings_cache p = None ->
  (forall t c, environ !! "AZURE_AD_TENANT_ID" = Some t ->
               environ !! "AZURE_AD_CLIENT_ID" = Some c -> t = "" \/ c = "") ->
  (GET_auth_me E environ request p).1 = Raise MissingConfiguration
  /\ settings_cache (GET_auth_me E environ request p).2 = None
  /\ world (GET_auth_me E environ request p).2 = world p.
Proof.
  intros Hnone Henv. unfold GET_auth_me, get_settings. rewrite Hnone.
  assert (Hnew : AzureADSettings_new environ (objects p) = Raise MissingConfiguration).
  { unfold AzureADSettings_new.
    destruct (environ !! "AZURE_AD_TENANT_ID") as [t|]; [| done].
    destruct (environ !! "AZURE_AD_CLIENT_ID") as [c|]; [| done].
    destruct (Henv t c eq_refl eq_refl) as [-> | ->]; [done |].
    by rewrite orb_true_r. }
  by rewrite Hnew.
Qed.

(** X21. Once the process holds its settings object and the key set for
    it, a request [GET /auth/me] sends nothing, whatever its header and
    token, and leaves both in place: the same holds for every later
    request. *)
Theorem GET_auth_me_memoized environ request p settings jwks :
  settings_cache p = Some settings ->
  Lru.find (obj_id settings) (jwks_cache (world p)) = Some jwks ->
  let p' := (GET_auth_me E environ request p).2 in
  http_log (world p') = http_log (world p)
  /\ settings_cache p' = Some settings
  /\ Lru.find (obj_id settings) (jwks_cache (world p')) = Some jwks.
Proof.
  intros Hs Hfind p'. subst p'. unfold GET_auth_me, get_settings. rewrite Hs.
  simpl. split; [| split; [done |]].
  - unfold auth_me. rewrite M_bind_snd.
    destruct (headers_get request "Authorization") as [v|] eqn:Hget.
    + destruct (Py.startswith (Py.lower v) "bearer ") eqn:Hb.
      * rewrite (get_current_user_claims_bearer E request settings _ v Hget Hb).
        destruct (String.eqb _ ""); [done |].
        match goal with
        | |- context [validate_jwt E ?t settings ?w0] =>
            pose proof (validate_jwt_after_get_jwks E http_log
                          ltac:(done) ltac:(done) t settings w0) as Hlog;
            destruct (get_jwks_cached E settings w0 jwks Hfind) as (_ & Hl & _);
            rewrite Hl in Hlog;
            destruct (validate_jwt E t settings w0) as [[claims|e] w1]
        end; exact Hlog.
      * rewrite (get_current_user_claims_refused E request settings);
          [done | by rewrite Hget].
    + rewrite (get_current_user_claims_refused E request settings);
        [done | by rewrite Hget].
  - unfold auth_me. rewrite M_bind_snd.
    destruct (headers_get request "Authorization") as [v|] eqn:Hget.
    + destruct (Py.startswith (Py.lower v) "bearer ") eqn:Hb.
      * rewrite (get_current_user_claims_bearer E request settings _ v Hget Hb).
        destruct (String.eqb _ ""); [done |].
        match goal with
        | |- context [validate_jwt E ?t settings ?w0] =>
            pose proof (validate_jwt_after_get_jwks E jwks_cache
                          ltac:(done) ltac:(done) t settings w0) as Hc;
            destruct (get_jwks_cached E settings w0 jwks Hfind) as (_ & _ & Hf);
            rewrite <- Hc in Hf;
            destruct (validate_jwt E t settings w0) as [[claims|e] w1]
        end; exact Hf.
      * rewrite (get_current_user_claims_refused E request settings);
          [done | by rewrite Hget].
    + rewrite (get_current_user_claims_refused E request settings);
        [done | by rewrite Hget].
Qed.

End Requests.

(** ** The settings constructor *)

Lemma ENV_VARIABLES_environ dotenv os_environ k v :
  os_environ !! k = Some v -> ENV_VARIABLES dotenv os_environ !! k = Some (Some v).
Proof.
  intros H. unfold ENV_VARIABLES.
  apply lookup_union_Some_l. by rewrite lookup_fmap, H.
Qed.

(** X14. [AzureADSettings()] succeeds exactly when the environment gives
    both [AZURE_AD_TENANT_ID] and [AZURE_AD_CLIENT_ID] a non-empty value;
    otherwise it raises. *)
Theorem AzureADSettings_init_requires_ids (env : gmap string (option string)) :
  (exists a, AzureADSettings_init env = Ok a)
  <-> (exists t c, env !! "AZURE_AD_TENANT_ID" = Some (Some t) /\ t <> ""
                   /\ env !! "AZURE_AD_CLIENT_ID" = Some (Some c) /\ c <> "").
Proof.
  unfold AzureADSettings_init, env_get. split.
  - intros [a Ha].
    destruct (env !! "AZURE_AD_TENANT_ID") as [[t|]|]; simpl in Ha; try discriminate.
    destruct (env !! "AZURE_AD_CLIENT_ID") as [[c|]|]; simpl in Ha; try discriminate.
    destruct (String.eqb_spec t ""); [discriminate |].
    destruct (String.eqb_spec c ""); [discriminate |].
    by exists t, c.
  - intros (t & c & -> & Ht & -> & Hc). simpl.
    destruct (String.eqb_spec t ""); [done |].
    destruct (String.eqb_spec c ""); [done |]. by eexists.
Qed.

(** X15. With the two identifiers in the process environment and none of
    the four overrides set, the settings get the issuer and discovery URL
    of the tenant's v2.0 endpoint, no JWKS URL, and the client id as
    audience.  The identifiers of the process environment win over those of
    the [.env] file. *)
Theorem AzureADSettings_init_defaults dotenv os_environ t c oid :
  let env := ENV_VARIABLES dotenv os_environ in
  os_environ !! "AZURE_AD_TENANT_ID" = Some t -> t <> "" ->
  os_environ !! "AZURE_AD_CLIENT_ID" = Some c -> c <> "" ->
  env !! "AZURE_AD_ISSUER" = None ->
  env !! "AZURE_AD_OPENID_CONFIG_URL" = None ->
  env !! "AZURE_AD_JWKS_URI" = None ->
  env !! "AZURE_AD_AUDIENCE" = None ->
  exists a,
    AzureADSettings_init env = Ok a
    /\ settings_instance oid a
       = Some {| obj_id := oid;
                 tenant_id := t;
                 client_id := c;
                 issuer := "https://login.microsoftonline.com/" +:+ t +:+ "/v2.0";
                 openid_config_url :=
                   "https://login.microsoftonline.com/" +:+ t
                   +:+ "/v2.0/.well-known/openid-configuration";
                 jwks_uri := None;
                 audience := c |}.
Proof.
  intros env Ht Hte Hc Hce Hi Hu Hj Ha. subst env.
  unfold AzureADSettings_init, env_get, env_get_default.
  rewrite (ENV_VARIABLES_environ dotenv os_environ _ t Ht).
  rewrite (ENV_VARIABLES_environ dotenv os_environ _ c Hc).
  rewrite Hi, Hu, Hj, Ha. simpl.
  destruct (String.eqb_spec t ""); [done |].
  destruct (String.eqb_spec c ""); [done |]. simpl. by eexists.
Qed.

(** X16. Built from the process environment alone, the attributes of the
    settings are strings as annotated: only a key of the [.env] file without
    a value can leave [None] in [issuer], [openid_config_url] or
    [audience]. *)
Theorem AzureADSettings_init_environ_typed os_environ a oid :
  AzureADSettings_init (ENV_VARIABLES ∅ os_environ) = Ok a ->
  is_Some (settings_instance oid a).
Proof.
  unfold AzureADSettings_init, env_get, env_get_default, ENV_VARIABLES.
  rewrite (right_id_L ∅ (∪)). rewrite !lookup_fmap.
  destruct (os_environ !! "AZURE_AD_TENANT_ID") as [t|]; simpl; [| discriminate].
  destruct (os_environ !! "AZURE_AD_CLIENT_ID") as [c|]; simpl; [| discriminate].
  destruct (_ || _); [discriminate |]. intros [= <-].
  unfold settings_instance. simpl.
  destruct (os_environ !! "AZURE_AD_ISSUER"),
    (os_environ !! "AZURE_AD_OPENID_CONFIG_URL"),
    (os_environ !! "AZURE_AD_AUDIENCE"); by eexists.
Qed.

(** ** A bound for overlapping calls *)

Lemma sum_list_insert (f : call_state -> nat) ts i c c' :
  ts !! i = Some c ->
  sum_list (f <$> <[i := c']> ts) + f c = sum_list (f <$> ts) + f c'.
Proof.
  revert i. induction ts as [|t ts IH]; intros [|i] H; simpl in *;
    try discriminate.
  - injection H as ->. generalize (f c) (f c') (sum_list (f <$> ts)). intros; lia.
  - rewrite <- !Nat.add_assoc. f_equal. exact (IH i H).
Qed.

Section Overlap.
Context (E : Env).

Lemma fetch_sends (u : json) (w : World) :
  length (http_log ((resp ← client_get E u;
                     _ ← lift (raise_for_status resp);
                     lift (resp_json resp)) w).2)
  <= length (http_log w) + 1.
Proof.
  destruct u as [| | | |s| |];
    try (unfold mbind, M_bind, client_get, raise; simpl; lia).
  destruct (url_error E s) as [msg|] eqn:Hurl.
  - rewrite (fetch_invalid E s msg w Hurl). simpl. lia.
  - rewrite (fetch_world E s w Hurl). simpl. rewrite length_app. simpl. lia.
Qed.

Lemma get_openid_config_sends settings w :
  length (http_log (get_openid_config E settings w).2) <= length (http_log w) + 1.
Proof.
  unfold get_openid_config, lru_cache. simpl.
  destruct (Lru.lookup _ _) as [[v c]|]; simpl; [lia |].
  pose proof (fetch_sends (JStr (openid_config_url settings)) w) as Hw.
  fold (get_openid_config_body E settings) in Hw.
  by destruct (get_openid_config_body E settings w) as [[v|e] w'].
Qed.

Lemma get_jwks_body_sends settings w :
  length (http_log (get_jwks_body E settings w).2) <= length (http_log w) + 2.
Proof.
  unfold get_jwks_body. destruct (negb (Py.truthy _)).
  - unfold mbind at 1, M_bind at 1. unfold mbind at 1, M_bind at 1.
    pose proof (get_openid_config_sends settings w) as Hcfg.
    destruct (get_openid_config E settings w) as [[config|e] w2]; simpl in Hcfg;
      [| simpl; lia].
    unfold mbind at 1, M_bind at 1, lift at 1.
    destruct (config_get config "jwks_uri") as [u|e]; [| simpl; lia].
    destruct (negb (Py.truthy u)); [simpl; lia |].
    unfold mret at 1, M_ret at 1.
    pose proof (fetch_sends u w2). lia.
  - unfold mbind at 1, M_bind at 1, mret at 1, M_ret at 1.
    pose proof (fetch_sends (match jwks_uri settings with
                             | Some u => JStr u | None => JNull end) w). lia.
Qed.

Lemma call_step_budget settings c w :
  length (http_log (call_step E settings c w).2)
  + pending_requests (call_step E settings c w).1
  <= length (http_log w) + pending_requests c.
Proof.
  destruct c as [| |v|r]; simpl.
  - destruct (Lru.lookup _ _) as [[v c']|]; simpl; lia.
  - pose proof (get_jwks_body_sends settings w) as H.
    destruct (get_jwks_body E settings w) as [[v|e] w']; simpl in *; lia.
  - lia.
  - lia.
Qed.

Lemma run_schedule_budget settings schedule threads w :
  length (http_log (run_schedule E settings schedule threads w).2)
  + sum_list (pending_requests <$> (run_schedule E settings schedule threads w).1)
  <= length (http_log w) + sum_list (pending_requests <$> threads).
Proof.
  revert threads w. induction schedule as [|i rest IH]; intros threads w; simpl;
    [lia |].
  destruct (threads !! i) as [c|] eqn:Hi; [| apply IH].
  pose proof (call_step_budget settings c w) as Hstep.
  destruct (call_step E settings c w) as [c' w'] eqn:Hcs. simpl in Hstep.
  pose proof (IH (<[i := c']> threads) w') as Hrest.
  pose proof (sum_list_insert pending_requests threads i c c' Hi). lia.
Qed.

(** X17. However [n] calls of [get_jwks] interleave, together they send
    at most [2 * n] requests: each call runs the body at most once, and the
    body sends at most the discovery request and the key-set request. *)
Theorem overlapping_calls_bounded settings schedule n w :
  length (http_log (run_schedule E settings schedule (replicate n Called) w).2)
  <= length (http_log w) + 2 * n.
Proof.
  pose proof (run_schedule_budget settings schedule (replicate n Called) w) as H.
  assert (Hn : sum_list (pending_requests <$> replicate n Called) = 2 * n).
  { clear. induction n as [|n IHn]; [done |].
    change (sum_list (pending_requests <$> replicate (S n) Called))
      with (2 + sum_list (pending_requests <$> replicate n Called)).
    rewrite IHn. lia. }
  rewrite Hn in H. revert H.
  generalize (sum_list (pending_requests
                          <$> (run_schedule E settings schedule
                                 (replicate n Called) w).1)).
  intros; lia.
Qed.

End Overlap.

(** ** More on the memo tables *)

Lemma Lru_find_remove_ne k k' c :
  k' <> k -> Lru.find k' (Lru.remove k c) = Lru.find k' c.
Proof.
  intros Hne. induction c as [|[k0 v0] c IH]; simpl; [done |].
  destruct (Nat.eqb_spec k k0) as [->|Hk].
  - destruct (Nat.eqb_spec k' k0); [done | done].
  - simpl. by rewrite IH.
Qed.

Lemma Lru_find_take_None k n c :
  Lru.find k c = None -> Lru.find k (take n c) = None.
Proof.
  revert n. induction c as [|[k0 v0] c IH]; intros [|n]; simpl; try done.
  destruct (Nat.eqb k k0); [done | apply IH].
Qed.

Section MemoMore.
Context (E : Env).

(** X18. After a call of [get_openid_config] that returned, the next call
    returns the same document and sends nothing. *)
Theorem get_openid_config_memoized settings w doc w1 :
  get_openid_config E settings w = (Ok doc, w1) ->
  (get_openid_config E settings w1).1 = Ok doc
  /\ http_log (get_openid_config E settings w1).2 = http_log w1.
Proof.
  intros Hcall.
  assert (Hfind : Lru.find (obj_id settings) (openid_config_cache w1) = Some doc).
  { revert Hcall. unfold get_openid_config, lru_cache. simpl.
    destruct (Lru.lookup _ _) as [[v0 c0]|] eqn:Hl.
    - intros [= <- <-]. by apply Lru_find_lookup in Hl as [_ ?].
    - assert (Hk : keeps openid_config_cache (get_openid_config_body E settings)).
      { unfold get_openid_config_body. repeat keeps_step. }
      specialize (Hk w).
      destruct (get_openid_config_body E settings w) as [[v0|e] w0]; [| discriminate].
      intros [= <- <-]. simpl in *. rewrite Hk.
      by apply Lru_find_store, Lru_lookup_None. }
  unfold get_openid_config, lru_cache, Lru.lookup. simpl. by rewrite Hfind.
Qed.

(** X19. The tables are keyed by the settings object: a call of
    [get_jwks] for one object creates no entry for another. *)
Theorem get_jwks_other_settings_untouched settings settings' w :
  obj_id settings' <> obj_id settings ->
  Lru.find (obj_id settings') (jwks_cache w) = None ->
  Lru.find (obj_id settings') (jwks_cache (get_jwks E settings w).2) = None.
Proof.
  intros Hne Hnone. unfold get_jwks, lru_cache. simpl.
  destruct (Lru.lookup _ _) as [[v c]|] eqn:Hl.
  - unfold Lru.lookup in Hl.
    destruct (Lru.find (obj_id settings) (jwks_cache w)); [| discriminate].
    injection Hl as <- <-. simpl.
    destruct (Nat.eqb_spec (obj_id settings') (obj_id settings)); [done |].
    by rewrite Lru_find_remove_ne.
  - pose proof (keeps_jwks_cache_get_jwks_body E settings w) as Hk.
    destruct (get_jwks_body E settings w) as [[v|e] w']; simpl in *;
      rewrite Hk; [| done].
    unfold Lru.store. destruct (Lru.find (obj_id settings) (jwks_cache w)); [done |].
    destruct (_ <? _); simpl;
      destruct (Nat.eqb_spec (obj_id settings') (obj_id settings)); try done.
    by apply Lru_find_take_None.
Qed.

End MemoMore.

(** ** The further properties on concrete inputs *)

Lemma _get_signing_key_first_match_witness :
  exists headers d keys i,
    jwt_get_unverified_header Demo.env "legacy" = inr headers
    /\ Py.truthy (Py.get headers "kid") = true
    /\ Demo.jwks = JObj d
    /\ d !! "keys" = Some (JList keys)
    /\ keys !! i = Some (JObj Demo.key1)
    /\ Py.eq (Py.get Demo.key1 "kid") (Py.get headers "kid") = true
    /\ forall j, j < i ->
         exists dj, keys !! j = Some (JObj dj)
                    /\ Py.eq (Py.get dj "kid") (Py.get headers "kid") = false.
Proof.
  apply (_get_signing_key_first_match Demo.env "legacy" Demo.jwks Demo.key1).
  vm_compute. reflexivity.
Defined.

Lemma validate_jwt_falsy_kid_witness :
  (validate_jwt Demo2.env_blank_kid "blank" Demo.settings initial_world).1
  = Raise MissingKeyId.
Proof.
  rewrite (validate_jwt_falsy_kid Demo2.env_blank_kid "blank" Demo.settings
             initial_world Demo.jwks
             (get_jwks Demo2.env_blank_kid Demo.settings initial_world).2
             {[ "alg" := JStr "RS256"; "kid" := JStr "" ]}).
  - reflexivity.
  - apply pair_fst_eq. vm_compute. reflexivity.
  - reflexivity.
  - vm_compute. reflexivity.
Defined.

Lemma validate_jwt_key_set_not_object_witness :
  let w := (get_jwks Demo2.env_list_keys Demo.settings_explicit initial_world).2 in
  (validate_jwt Demo2.env_list_keys "legacy" Demo.settings_explicit w).1
  = Raise AttributeError
  /\ http_log (validate_jwt Demo2.env_list_keys "legacy" Demo.settings_explicit w).2
     = http_log w.
Proof.
  intros w.
  destruct (validate_jwt_key_set_not_object Demo2.env_list_keys "legacy"
              Demo.settings_explicit w (JList [])
              {[ "alg" := JStr "RS256"; "kid" := JStr "k1" ]})
    as (Hr & Hlog & _).
  - vm_compute. reflexivity.
  - discriminate.
  - vm_compute. reflexivity.
  - vm_compute. reflexivity.
  - by split.
Defined.

Lemma get_jwks_failure_not_memoized_witness :
  jwks_cache (get_jwks Demo.env Demo2.settings_down initial_world).2 = [].
Proof.
  destruct (get_jwks_failure_not_memoized Demo.env Demo2.settings_down
              initial_world (RequestError "All connection attempts failed")
              (get_jwks Demo.env Demo2.settings_down initial_world).2)
    as [_ H].
  - apply pair_fst_eq. vm_compute. reflexivity.
  - exact H.
Defined.

(** A key endpoint that answers, one that does not connect, one whose URL
    does not parse. *)
Lemma get_jwks_explicit_uri_witness :
  http_log (get_jwks Demo.env Demo.settings_explicit initial_world).2
  = [Demo.keys_url]
  /\ http_log (get_jwks Demo.env Demo2.settings_down initial_world).2
     = ["https://down.example/keys"]
  /\ get_jwks Demo.env Demo2.settings_bad_port initial_world
     = (Raise (InvalidURL "Invalid port: 'port'"), initial_world).
Proof.
  split; [| split].
  - apply (get_jwks_explicit_uri Demo.env Demo.settings_explicit initial_world
             Demo.keys_url); [reflexivity | discriminate | reflexivity].
  - apply (get_jwks_explicit_uri Demo.env Demo2.settings_down initial_world
             "https://down.example/keys"); [reflexivity | discriminate | reflexivity].
  - apply (get_jwks_explicit_uri Demo.env Demo2.settings_bad_port initial_world
             Demo.bad_port_url); [reflexivity | discriminate | reflexivity].
Defined.

Lemma get_jwks_reuses_discovery_witness :
  let w := (get_openid_config Demo.env Demo.settings initial_world).2 in
  http_log (get_jwks Demo.env Demo.settings w).2 = http_log w ++ [Demo.keys_url].
Proof.
  intros w.
  apply (get_jwks_reuses_discovery Demo.env Demo.settings w
           {[ "issuer" := JStr "https://login.example/T/v2.0";
              "jwks_uri" := JStr Demo.keys_url ]} Demo.keys_url).
  - reflexivity.
  - vm_compute. reflexivity.
  - vm_compute. reflexivity.
  - vm_compute. reflexivity.
  - discriminate.
Defined.

Lemma get_jwks_tables_wf_witness :
  Lru_wf (openid_config_cache (get_jwks Demo.env Demo.settings initial_world).2)
  /\ Lru_wf (jwks_cache (get_jwks Demo.env Demo.settings initial_world).2).
Proof.
  apply (get_jwks_tables_wf Demo.env Demo.settings initial_world);
    (split; [constructor | unfold Lru.maxsize; simpl; lia]).
Defined.

Lemma validate_jwt_sound_witness :
  exists jwks key aud iss now,
    (get_jwks (freeze_clock Demo.env 0) Demo.settings_default initial_world).1
    = Ok jwks
    /\ _get_signing_key (freeze_clock Demo.env 0) "legacy" jwks = Ok key
    /\ (aud, iss) ∈ candidate_pairs Demo.settings_default
    /\ jwt_decode (freeze_clock Demo.env 0) now "legacy" key aud iss
       = Ok Demo.legacy_claims.
Proof.
  apply (validate_jwt_sound (freeze_clock Demo.env 0) "legacy"
           Demo.settings_default initial_world Demo.legacy_claims
           (validate_jwt (freeze_clock Demo.env 0) "legacy"
              Demo.settings_default initial_world).2).
  apply pair_fst_eq. vm_compute. reflexivity.
Defined.

Lemma Demo_decode_no_HTTPException now token key aud iss st detail :
  jwt_decode Demo.env now token key aud iss <> Raise (HTTPException st detail).
Proof.
  cbn [jwt_decode Demo.env]. unfold Demo.decode_at.
  destruct (negb (Py.eq _ _)); [discriminate |].
  destruct (negb (String.eqb token _)); [discriminate |].
  destruct (1000 <? now)%Z; [discriminate |].
  destruct (negb (String.eqb aud _)); [discriminate |].
  destruct (negb (String.eqb iss _)); discriminate.
Qed.

(** A request without the header in a configured process. *)
Lemma GET_auth_me_HTTPException_witness :
  (GET_auth_me Demo.env Demo2.os_environ [] initial_process).1
  = Raise MissingCredentials
  /\ (401 = 401)%Z /\ deliberate_failure MissingCredentials.
Proof.
  split; [vm_compute; reflexivity |].
  apply (GET_auth_me_HTTPException Demo.env Demo_decode_no_HTTPException
           Demo2.os_environ [] initial_process 401
           "Falta encabezado Authorization con Bearer token"
           (GET_auth_me Demo.env Demo2.os_environ [] initial_process).2).
  apply pair_fst_eq. vm_compute. reflexivity.
Defined.

(** A process without the client id: a request with a valid token ends
    with the constructor's failure. *)
Lemma GET_auth_me_unconfigured_witness :
  let run := GET_auth_me Demo.env Demo2.os_environ_partial
               [("authorization", "Bearer legacy")] initial_process in
  run.1 = Raise MissingConfiguration
  /\ settings_cache run.2 = None
  /\ world run.2 = initial_world.
Proof.
  intros run.
  apply (GET_auth_me_unconfigured Demo.env Demo2.os_environ_partial
           [("authorization", "Bearer legacy")] initial_process).
  - reflexivity.
  - intros t c _ Hc. vm_compute in Hc. discriminate Hc.
Defined.

(** After a first request that fetched the key set, a request with a token
    that names an unpublished key sends nothing. *)
Lemma GET_auth_me_memoized_witness :
  let p1 := (GET_auth_me Demo.env Demo2.os_environ_explicit
               [("authorization", "Bearer legacy")] initial_process).2 in
  http_log (world (GET_auth_me Demo.env Demo2.os_environ_explicit
                     [("authorization", "Bearer rotated")] p1).2)
  = [Demo.keys_url].
Proof.
  intros p1.
  destruct (GET_auth_me_memoized Demo.env Demo2.os_environ_explicit
              [("authorization", "Bearer rotated")] p1
              Demo2.settings_built Demo.jwks) as (Hlog & _ & _).
  - vm_compute. reflexivity.
  - vm_compute. reflexivity.
  - rewrite Hlog. vm_compute. reflexivity.
Defined.

Lemma AzureADSettings_init_defaults_witness :
  exists a,
    AzureADSettings_init (ENV_VARIABLES Demo2.dotenv Demo2.os_environ) = Ok a
    /\ settings_instance 7 a
       = Some {| obj_id := 7;
                 tenant_id := "T";
                 client_id := "C";
                 issuer := "https://login.microsoftonline.com/T/v2.0";
                 openid_config_url :=
                   "https://login.microsoftonline.com/T/v2.0/.well-known/openid-configuration";
                 jwks_uri := None;
                 audience := "C" |}.
Proof.
  apply (AzureADSettings_init_defaults Demo2.dotenv Demo2.os_environ "T" "C" 7);
    first [ discriminate | vm_compute; reflexivity ].
Defined.

Lemma AzureADSettings_init_environ_typed_witness :
  is_Some (settings_instance 7
             {| a_tenant_id := "T";
                a_client_id := "C";
                a_issuer := Some "https://login.microsoftonline.com/T/v2.0";
                a_openid_config_url :=
                  Some "https://login.microsoftonline.com/T/v2.0/.well-known/openid-configuration";
                a_jwks_uri := None;
                a_audience := Some "C" |}).
Proof.
  apply (AzureADSettings_init_environ_typed Demo2.os_environ).
  vm_compute. reflexivity.
Defined.

Lemma get_openid_config_memoized_witness :
  let w1 := (get_openid_config Demo.env Demo.settings initial_world).2 in
  (get_openid_config Demo.env Demo.settings w1).1 = Ok Demo.discovery
  /\ http_log (get_openid_config Demo.env Demo.settings w1).2 = http_log w1.
Proof.
  intros w1.
  apply (get_openid_config_memoized Demo.env Demo.settings initial_world).
  apply pair_fst_eq. vm_compute. reflexivity.
Defined.

Lemma get_jwks_other_settings_untouched_witness :
  Lru.find (obj_id Demo.settings)
    (jwks_cache (get_jwks Demo.env Demo.settings_explicit initial_world).2)
  = None.
Proof.
  apply (get_jwks_other_settings_untouched Demo.env Demo.settings_explicit
           Demo.settings initial_world); [discriminate | reflexivity].
Defined.
